(** * Orchestration state machine of the multi-agent workflow

    A shallow embedding of [src/workflow/workflow_state.py],
    [src/workflow/workflow_nodes.py] and [src/workflow/workflow_graph.py].

    - Python values that travel through the string-keyed dictionaries are
      the type [pyval]; a [Dict[str, Any]] is a [gmap string pyval].
    - [WorkflowState] is the pydantic model, field for field.
    - The five agents are external collaborators: a call either returns a
      dictionary or raises.  Their behaviour is a parameter of the whole
      development ([Agents]).
    - Stage executors mutate the state and may be interrupted by an
      exception, so they live in a state-and-exception monad [M] in which
      the mutations made before a [raise] persist, as in Python.
    - The graph engine is an interpreter over the topology declared in
      [_build_graph]; it is driven by fuel. *)

From stdpp Require Import gmap strings list.
From Stdlib Require Import ZArith.

#[local] Set Warnings "-register-all".

(** ** Python values *)

Inductive pyval : Type :=
| PNone
| PBool (b : bool)
| PInt (z : Z)
| PStr (s : string)
| PDict (d : gmap string pyval).

Abbreviation dict := (gmap string pyval).

(** Truth value testing ([bool(v)]). *)
Definition truthy (v : pyval) : bool :=
  match v with
  | PNone => false
  | PBool b => b
  | PInt z => negb (z =? 0)%Z
  | PStr s => negb (String.eqb s "")
  | PDict d => negb (bool_decide (dom d = ∅))
  end.

(** [a or b] *)
Definition py_or (a b : pyval) : pyval := if truthy a then a else b.

(** [d.get(key, default)] and [d.get(key)] *)
Definition dict_get (d : dict) (key : string) (default : pyval) : pyval :=
  match d !! key with
  | Some v => v
  | None => default
  end.

Definition py_get (d : dict) (key : string) : pyval := dict_get d key PNone.

(** [v == "lit"] for a string literal. *)
Definition eq_str (v : pyval) (lit : string) : bool :=
  match v with
  | PStr s => String.eqb s lit
  | _ => false
  end.

(** An [Optional[Dict]] slot seen as a value. *)
Definition opt_dict (o : option dict) : pyval :=
  match o with
  | Some d => PDict d
  | None => PNone
  end.

Definition opt_str (o : option string) : pyval :=
  match o with
  | Some s => PStr s
  | None => PNone
  end.

Definition is_not_None (v : pyval) : bool :=
  match v with
  | PNone => false
  | _ => true
  end.

(** ** workflow_state.py *)

Inductive WorkflowStatus :=
| PENDING | PLANNING | CODING | TESTING | DEBUGGING | DOCUMENTING
| COMPLETED | FAILED.

#[global] Instance WorkflowStatus_eq_dec : EqDecision WorkflowStatus.
Proof. solve_decision. Defined.

(** [status.value] *)
Definition status_value (st : WorkflowStatus) : string :=
  match st with
  | PENDING => "pending"
  | PLANNING => "planning"
  | CODING => "coding"
  | TESTING => "testing"
  | DEBUGGING => "debugging"
  | DOCUMENTING => "documenting"
  | COMPLETED => "completed"
  | FAILED => "failed"
  end.

Record WorkflowState := mkWorkflowState {
  workflow_id : string;
  user_request : string;
  status : WorkflowStatus;
  current_task : option string;
  completed_tasks : list string;
  failed_tasks : list string;
  planner_result : option dict;
  coder_result : option dict;
  tester_result : option dict;
  debugger_result : option dict;
  documenter_result : option dict;
  iteration_count : Z;
  max_iterations : Z;
  last_error : option string;
  error_history : list string;
  context : dict;
  final_code : pyval;
  final_documentation : pyval
}.

(** The constructor call of [execute]: every field not passed takes its
    declared default. *)
Definition new_WorkflowState (workflow_id user_request : string)
    (status : WorkflowStatus) (max_iterations : Z) : WorkflowState :=
  {| workflow_id := workflow_id; user_request := user_request;
     status := status; current_task := None;
     completed_tasks := []; failed_tasks := [];
     planner_result := None; coder_result := None; tester_result := None;
     debugger_result := None; documenter_result := None;
     iteration_count := 0; max_iterations := max_iterations;
     last_error := None; error_history := []; context := ∅;
     final_code := PNone; final_documentation := PNone |}.

(** Attribute assignment [state.f = v], one function per assigned field. *)
Definition set_status (v : WorkflowStatus) (s : WorkflowState) : WorkflowState :=
  {| workflow_id := workflow_id s; user_request := user_request s;
     status := v; current_task := current_task s;
     completed_tasks := completed_tasks s; failed_tasks := failed_tasks s;
     planner_result := planner_result s; coder_result := coder_result s;
     tester_result := tester_result s; debugger_result := debugger_result s;
     documenter_result := documenter_result s;
     iteration_count := iteration_count s;
     max_iterations := max_iterations s; last_error := last_error s;
     error_history := error_history s; context := context s;
     final_code := final_code s;
     final_documentation := final_documentation s |}.

Definition set_current_task (v : option string) (s : WorkflowState) : WorkflowState :=
  {| workflow_id := workflow_id s; user_request := user_request s;
     status := status s; current_task := v;
     completed_tasks := completed_tasks s; failed_tasks := failed_tasks s;
     planner_result := planner_result s; coder_result := coder_result s;
     tester_result := tester_result s; debugger_result := debugger_result s;
     documenter_result := documenter_result s;
     iteration_count := iteration_count s;
     max_iterations := max_iterations s; last_error := last_error s;
     error_history := error_history s; context := context s;
     final_code := final_code s;
     final_documentation := final_documentation s |}.

Definition set_completed_tasks (v : list string) (s : WorkflowState) : WorkflowState :=
  {| workflow_id := workflow_id s; user_request := user_request s;
     status := status s; current_task := current_task s;
     completed_tasks := v; failed_tasks := failed_tasks s;
     planner_result := planner_result s; coder_result := coder_result s;
     tester_result := tester_result s; debugger_result := debugger_result s;
     documenter_result := documenter_result s;
     iteration_count := iteration_count s;
     max_iterations := max_iterations s; last_error := last_error s;
     error_history := error_history s; context := context s;
     final_code := final_code s;
     final_documentation := final_documentation s |}.

Definition set_failed_tasks (v : list string) (s : WorkflowState) : WorkflowState :=
  {| workflow_id := workflow_id s; user_request := user_request s;
     status := status s; current_task := current_task s;
     completed_tasks := completed_tasks s; failed_tasks := v;
     planner_result := planner_result s; coder_result := coder_result s;
     tester_result := tester_result s; debugger_result := debugger_result s;
     documenter_result := documenter_result s;
     iteration_count := iteration_count s;
     max_iterations := max_iterations s; last_error := last_error s;
     error_history := error_history s; context := context s;
     final_code := final_code s;
     final_documentation := final_documentation s |}.

Definition set_planner_result (v : option dict) (s : WorkflowState) : WorkflowState :=
  {| workflow_id := workflow_id s; user_request := user_request s;
     status := status s; current_task := current_task s;
     completed_tasks := completed_tasks s; failed_tasks := failed_tasks s;
     planner_result := v; coder_result := coder_result s;
     tester_result := tester_result s; debugger_result := debugger_result s;
     documenter_result := documenter_result s;
     iteration_count := iteration_count s;
     max_iterations := max_iterations s; last_error := last_error s;
     error_history := error_history s; context := context s;
     final_code := final_code s;
     final_documentation := final_documentation s |}.

Definition set_coder_result (v : option dict) (s : WorkflowState) : WorkflowState :=
  {| workflow_id := workflow_id s; user_request := user_request s;
     status := status s; current_task := current_task s;
     completed_tasks := completed_tasks s; failed_tasks := failed_tasks s;
     planner_result := planner_result s; coder_result := v;
     tester_result := tester_result s; debugger_result := debugger_result s;
     documenter_result := documenter_result s;
     iteration_count := iteration_count s;
     max_iterations := max_iterations s; last_error := last_error s;
     error_history := error_history s; context := context s;
     final_code := final_code s;
     final_documentation := final_documentation s |}.

Definition set_tester_result (v : option dict) (s : WorkflowState) : WorkflowState :=
  {| workflow_id := workflow_id s; user_request := user_request s;
     status := status s; current_task := current_task s;
     completed_tasks := completed_tasks s; failed_tasks := failed_tasks s;
     planner_result := planner_result s; coder_result := coder_result s;
     tester_result := v; debugger_result := debugger_result s;
     documenter_result := documenter_result s;
     iteration_count := iteration_count s;
     max_iterations := max_iterations s; last_error := last_error s;
     error_history := error_history s; context := context s;
     final_code := final_code s;
     final_documentation := final_documentation s |}.

Definition set_debugger_result (v : option dict) (s : WorkflowState) : WorkflowState :=
  {| workflow_id := workflow_id s; user_request := user_request s;
     status := status s; current_task := current_task s;
     completed_tasks := completed_tasks s; failed_tasks := failed_tasks s;
     planner_result := planner_result s; coder_result := coder_result s;
     tester_result := tester_result s; debugger_result := v;
     documenter_result := documenter_result s;
     iteration_count := iteration_count s;
     max_iterations := max_iterations s; last_error := last_error s;
     error_history := error_history s; context := context s;
     final_code := final_code s;
     final_documentation := final_documentation s |}.

Definition set_documenter_result (v : option dict) (s : WorkflowState) : WorkflowState :=
  {| workflow_id := workflow_id s; user_request := user_request s;
     status := status s; current_task := current_task s;
     completed_tasks := completed_tasks s; failed_tasks := failed_tasks s;
     planner_result := planner_result s; coder_result := coder_result s;
     tester_result := tester_result s; debugger_result := debugger_result s;
     documenter_result := v; iteration_count := iteration_count s;
     max_iterations := max_iterations s; last_error := last_error s;
     error_history := error_history s; context := context s;
     final_code := final_code s;
     final_documentation := final_documentation s |}.

Definition set_iteration_count (v : Z) (s : WorkflowState) : WorkflowState :=
  {| workflow_id := workflow_id s; user_request := user_request s;
     status := status s; current_task := current_task s;
     completed_tasks := completed_tasks s; failed_tasks := failed_tasks s;
     planner_result := planner_result s; coder_result := coder_result s;
     tester_result := tester_result s; debugger_result := debugger_result s;
     documenter_result := documenter_result s; iteration_count := v;
     max_iterations := max_iterations s; last_error := last_error s;
     error_history := error_history s; context := context s;
     final_code := final_code s;
     final_documentation := final_documentation s |}.

Definition set_last_error (v : option string) (s : WorkflowState) : WorkflowState :=
  {| workflow_id := workflow_id s; user_request := user_request s;
     status := status s; current_task := current_task s;
     completed_tasks := completed_tasks s; failed_tasks := failed_tasks s;
     planner_result := planner_result s; coder_result := coder_result s;
     tester_result := tester_result s; debugger_result := debugger_result s;
     documenter_result := documenter_result s;
     iteration_count := iteration_count s;
     max_iterations := max_iterations s; last_error := v;
     error_history := error_history s; context := context s;
     final_code := final_code s;
     final_documentation := final_documentation s |}.

Definition set_error_history (v : list string) (s : WorkflowState) : WorkflowState :=
  {| workflow_id := workflow_id s; user_request := user_request s;
     status := status s; current_task := current_task s;
     completed_tasks := completed_tasks s; failed_tasks := failed_tasks s;
     planner_result := planner_result s; coder_result := coder_result s;
     tester_result := tester_result s; debugger_result := debugger_result s;
     documenter_result := documenter_result s;
     iteration_count := iteration_count s;
     max_iterations := max_iterations s; last_error := last_error s;
     error_history := v; context := context s; final_code := final_code s;
     final_documentation := final_documentation s |}.

Definition set_context (v : dict) (s : WorkflowState) : WorkflowState :=
  {| workflow_id := workflow_id s; user_request := user_request s;
     status := status s; current_task := current_task s;
     completed_tasks := completed_tasks s; failed_tasks := failed_tasks s;
     planner_result := planner_result s; coder_result := coder_result s;
     tester_result := tester_result s; debugger_result := debugger_result s;
     documenter_result := documenter_result s;
     iteration_count := iteration_count s;
     max_iterations := max_iterations s; last_error := last_error s;
     error_history := error_history s; context := v;
     final_code := final_code s;
     final_documentation := final_documentation s |}.

Definition set_final_code (v : pyval) (s : WorkflowState) : WorkflowState :=
  {| workflow_id := workflow_id s; user_request := user_request s;
     status := status s; current_task := current_task s;
     completed_tasks := completed_tasks s; failed_tasks := failed_tasks s;
     planner_result := planner_result s; coder_result := coder_result s;
     tester_result := tester_result s; debugger_result := debugger_result s;
     documenter_result := documenter_result s;
     iteration_count := iteration_count s;
     max_iterations := max_iterations s; last_error := last_error s;
     error_history := error_history s; context := context s; final_code := v;
     final_documentation := final_documentation s |}.

Definition set_final_documentation (v : pyval) (s : WorkflowState) : WorkflowState :=
  {| workflow_id := workflow_id s; user_request := user_request s;
     status := status s; current_task := current_task s;
     completed_tasks := completed_tasks s; failed_tasks := failed_tasks s;
     planner_result := planner_result s; coder_result := coder_result s;
     tester_result := tester_result s; debugger_result := debugger_result s;
     documenter_result := documenter_result s;
     iteration_count := iteration_count s;
     max_iterations := max_iterations s; last_error := last_error s;
     error_history := error_history s; context := context s;
     final_code := final_code s; final_documentation := v |}.
(** Methods of [WorkflowState]. *)

Definition update_status (new_status : WorkflowStatus) (s : WorkflowState)
  : WorkflowState := set_status new_status s.

Definition add_completed_task (task : string) (s : WorkflowState)
  : WorkflowState :=
  if bool_decide (task ∈ completed_tasks s) then s
  else set_completed_tasks (completed_tasks s ++ [task]) s.

Definition add_failed_task (task : string) (s : WorkflowState)
  : WorkflowState :=
  if bool_decide (task ∈ failed_tasks s) then s
  else set_failed_tasks (failed_tasks s ++ [task]) s.

Definition add_error (error : string) (s : WorkflowState) : WorkflowState :=
  set_error_history (error_history s ++ [error]) (set_last_error (Some error) s).

Definition increment_iteration (s : WorkflowState) : WorkflowState :=
  set_iteration_count (iteration_count s + 1)%Z s.

Definition can_continue_iteration (s : WorkflowState) : bool :=
  (iteration_count s <? max_iterations s)%Z.

Definition set_context_key (key : string) (value : pyval) (s : WorkflowState)
  : WorkflowState := set_context (<[key := value]> (context s)) s.

Definition get_context (key : string) (default : pyval) (s : WorkflowState)
  : pyval := dict_get (context s) key default.

(** [slot and slot.get(key)] as a truth value: the slot is neither [None]
    nor an empty dictionary, and the entry under [key] is truthy. *)
Definition slot_has (slot : option dict) (key : string) : bool :=
  match slot with
  | Some d => truthy (PDict d) && truthy (py_get d key)
  | None => false
  end.

(** [slot[key]], read after [slot_has] has established the entry. *)
Definition slot_item (slot : option dict) (key : string) : pyval :=
  match slot with
  | Some d => py_get d key
  | None => PNone
  end.

Definition get_latest_code (s : WorkflowState) : pyval :=
  if slot_has (debugger_result s) "fixed_code"
  then slot_item (debugger_result s) "fixed_code"
  else if slot_has (coder_result s) "code"
  then slot_item (coder_result s) "code"
  else PNone.

Definition get_test_status (s : WorkflowState) : pyval :=
  match tester_result s with
  | Some d => if truthy (PDict d) then dict_get d "status" (PStr "unknown")
              else PStr "not_tested"
  | None => PStr "not_tested"
  end.

Definition needs_debugging (s : WorkflowState) : bool :=
  match tester_result s with
  | Some d => eq_str (py_get d "status") "failed" && can_continue_iteration s
  | None => false
  end.

Definition is_workflow_complete (s : WorkflowState) : bool :=
  bool_decide (status s = COMPLETED) || bool_decide (status s = FAILED)
  || negb (can_continue_iteration s).

Definition get_summary (s : WorkflowState) : dict :=
  <["workflow_id" := PStr (workflow_id s)]>
  (<["status" := PStr (status_value (status s))]>
  (<["iteration_count" := PInt (iteration_count s)]>
  (<["completed_tasks" := PInt (Z.of_nat (length (completed_tasks s)))]>
  (<["failed_tasks" := PInt (Z.of_nat (length (failed_tasks s)))]>
  (<["has_code" := PBool (is_not_None (get_latest_code s))]>
  (<["test_status" := get_test_status s]>
  (<["has_documentation" :=
       PBool (bool_decide (documenter_result s ≠ None))]>
  (<["last_error" := opt_str (last_error s)]> ∅)))))))).

(** ** Exceptions and in-place mutation

    [M A] is a computation over the one shared [WorkflowState] object that
    either returns or raises; what it wrote before raising stays written. *)

Inductive result (A : Type) : Type :=
| Ok (a : A)
| Raise (e : string).
Arguments Ok {A} a.
Arguments Raise {A} e.

Definition M (A : Type) : Type := WorkflowState → result A * WorkflowState.

Definition ret {A} (a : A) : M A := λ s, (Ok a, s).

Definition bind {A B} (c : M A) (k : A → M B) : M B :=
  λ s, match c s with
       | (Ok a, s') => k a s'
       | (Raise e, s') => (Raise e, s')
       end.

Definition raise {A} (e : string) : M A := λ s, (Raise e, s).

(** [try: body  except Exception as e: handler(str(e))] *)
Definition try_except {A} (body : M A) (handler : string → M A) : M A :=
  λ s, match body s with
       | (Ok a, s') => (Ok a, s')
       | (Raise e, s') => handler e s'
       end.

Definition gets {A} (f : WorkflowState → A) : M A := λ s, (Ok (f s), s).
Definition modify (f : WorkflowState → WorkflowState) : M unit :=
  λ s, (Ok tt, f s).

(** [await agent.execute(...)]: the outcome of the call enters the
    computation. *)
Definition await {A} (r : result A) : M A := λ s, (r, s).

Declare Scope py_scope.
Delimit Scope py_scope with py.
Notation "x <- c ;; k" := (bind c (λ x, k))
  (at level 100, c at next level, right associativity) : py_scope.
Notation "c ;; k" := (bind c (λ _, k))
  (at level 100, right associativity) : py_scope.
Notation "'when' b 'then' c" := (if b then c else ret tt)
  (at level 100, b at next level, c at level 100) : py_scope.

(** ** workflow_nodes.py *)

(** The five collaborators.  The first argument counts the stage
    executions of the run so far, so that two calls with the same
    arguments may answer differently. *)
Record Agents := {
  planner_execute : nat → string → result dict;
  coder_execute : nat → string → dict → result dict;
  tester_execute : nat → string → dict → result dict;
  debugger_execute : nat → string → dict → result dict;
  documenter_execute : nat → string → dict → result dict
}.

Section WorkflowNodes.
Variable agents : Agents.
Local Open Scope py_scope.

(** [state.coder_result or state.get_context("generated_code")] *)
Definition generated_code_view (s : WorkflowState) : pyval :=
  py_or (opt_dict (coder_result s)) (get_context "generated_code" PNone s).

(** The context dictionaries built at the head of each [try] block. *)
Definition coding_context (s : WorkflowState) : dict :=
  <["plan" := opt_dict (planner_result s)]>
  (<["iteration" := PInt (iteration_count s)]> ∅).

Definition testing_context (s : WorkflowState) : dict :=
  <["generated_code" := generated_code_view s]>
  (<["plan" := opt_dict (planner_result s)]> ∅).

Definition debugging_context (s : WorkflowState) : dict :=
  <["generated_code" := generated_code_view s]>
  (<["test_result" := opt_dict (tester_result s)]>
  (<["plan" := opt_dict (planner_result s)]> ∅)).

Definition documenting_context (s : WorkflowState) : dict :=
  <["generated_code" := generated_code_view s]>
  (<["test_result" := opt_dict (tester_result s)]>
  (<["debug_result" := opt_dict (debugger_result s)]>
  (<["plan" := opt_dict (planner_result s)]> ∅))).

Definition planning_node (t : nat) : M unit :=
  modify (update_status PLANNING) ;;
  modify (set_current_task (Some "规划开发任务")) ;;
  try_except
    (request <- gets user_request ;;
     plan_result <- await (planner_execute agents t request) ;;
     modify (set_planner_result (Some plan_result)) ;;
     modify (set_context_key "plan" (PDict plan_result)) ;;
     modify (add_completed_task "规划"))
    (λ e,
     let error_msg := "规划失败: " +:+ e in
     modify (add_error error_msg) ;;
     modify (add_failed_task "规划")).

Definition coding_node (t : nat) : M unit :=
  modify (update_status CODING) ;;
  modify (set_current_task (Some "生成代码")) ;;
  try_except
    (context <- gets coding_context ;;
     request <- gets user_request ;;
     code_result <- await (coder_execute agents t request context) ;;
     modify (set_coder_result (Some code_result)) ;;
     modify (set_context_key "generated_code" (PDict code_result)) ;;
     modify (add_completed_task "编码"))
    (λ e,
     let error_msg := "编码失败: " +:+ e in
     modify (add_error error_msg) ;;
     modify (add_failed_task "编码")).

Definition testing_node (t : nat) : M unit :=
  modify (update_status TESTING) ;;
  modify (set_current_task (Some "执行测试")) ;;
  try_except
    (context <- gets testing_context ;;
     request <- gets user_request ;;
     test_result <- await (tester_execute agents t request context) ;;
     modify (set_tester_result (Some test_result)) ;;
     modify (set_context_key "test_result" (PDict test_result)) ;;
     modify (add_completed_task "测试"))
    (λ e,
     let error_msg := "测试失败: " +:+ e in
     modify (add_error error_msg) ;;
     modify (add_failed_task "测试")).

Definition debugging_node (t : nat) : M unit :=
  modify (update_status DEBUGGING) ;;
  modify (set_current_task (Some "调试和修复代码")) ;;
  try_except
    (context <- gets debugging_context ;;
     request <- gets user_request ;;
     debug_result <- await (debugger_execute agents t request context) ;;
     modify (set_debugger_result (Some debug_result)) ;;
     modify (set_context_key "debug_result" (PDict debug_result)) ;;
     (when truthy (py_get debug_result "fixed_code") then
        modify (λ s, set_coder_result (Some (
          <["code" := py_get debug_result "fixed_code"]>
          (<["status" := PStr "fixed"]>
          (<["iteration" := PInt (iteration_count s)]> ∅)))) s) ;;
        modify (λ s, set_context_key "generated_code"
                       (opt_dict (coder_result s)) s)) ;;
     modify (add_completed_task "调试") ;;
     modify increment_iteration)
    (λ e,
     let error_msg := "调试失败: " +:+ e in
     modify (add_error error_msg) ;;
     modify (add_failed_task "调试")).

Definition documenting_node (t : nat) : M unit :=
  modify (update_status DOCUMENTING) ;;
  modify (set_current_task (Some "生成文档")) ;;
  try_except
    (context <- gets documenting_context ;;
     request <- gets user_request ;;
     doc_result <- await (documenter_execute agents t request context) ;;
     modify (set_documenter_result (Some doc_result)) ;;
     modify (set_context_key "documentation" (PDict doc_result)) ;;
     modify (λ s, set_final_code (get_latest_code s) s) ;;
     modify (set_final_documentation (dict_get doc_result "readme" (PStr ""))) ;;
     modify (add_completed_task "文档生成") ;;
     modify (update_status COMPLETED))
    (λ e,
     let error_msg := "文档生成失败: " +:+ e in
     modify (add_error error_msg) ;;
     modify (add_failed_task "文档生成")).

Definition should_debug (s : WorkflowState) : bool := needs_debugging s.

Definition should_continue_iteration (s : WorkflowState) : bool :=
  needs_debugging s && can_continue_iteration s.

Definition should_generate_documentation (s : WorkflowState) : bool :=
  match tester_result s with
  | Some d => eq_str (py_get d "status") "passed"
  | None => false
  end.

End WorkflowNodes.

(** ** workflow_graph.py *)

(** Node names of the graph. *)
Inductive node := planning | coding | testing | debugging | documenting.

#[global] Instance node_eq_dec : EqDecision node.
Proof. solve_decision. Defined.

(** The strings returned by the two routing functions
    ([Literal["debugging", "testing", "documenting", "end"]]). *)
Inductive route := to_debugging | to_testing | to_documenting | to_end.

(** The path maps of [add_conditional_edges]; [None] is [END]. *)
Definition path_map (r : route) : option node :=
  match r with
  | to_debugging => Some debugging
  | to_testing => Some testing
  | to_documenting => Some documenting
  | to_end => None
  end.

Definition _route_after_testing (s : WorkflowState) : route :=
  if bool_decide (status s = FAILED) then to_end
  else if negb (can_continue_iteration s) then to_documenting
  else if should_debug s then to_debugging
  else if should_generate_documentation s then to_documenting
  else to_end.

Definition _route_after_debugging (s : WorkflowState) : route :=
  if bool_decide (status s = FAILED) then to_end
  else if negb (can_continue_iteration s) then to_documenting
  else if should_continue_iteration s then to_testing
  else to_documenting.

(** [WorkflowNodes.get_next_node], the routing table that the graph does
    not use. *)
Definition get_next_node (s : WorkflowState) : option node :=
  match status s with
  | PENDING => Some planning
  | PLANNING => Some coding
  | CODING => Some testing
  | TESTING =>
      if should_debug s then Some debugging
      else if should_generate_documentation s then Some documenting
      else Some documenting
  | DEBUGGING =>
      if should_continue_iteration s then Some testing
      else Some documenting
  | DOCUMENTING => None
  | _ => None
  end.

(** One node execution of a run: the node, how many nodes ran before it,
    the state it received and the state it left. *)
Record visit := {
  v_time : nat;
  v_node : node;
  v_before : WorkflowState;
  v_after : WorkflowState
}.

Section WorkflowGraph.
Variable agents : Agents.

(** The wrappers registered with [add_node]: run the node and hand the
    state object back. *)
Definition wrapper (node_fn : M unit) (s : WorkflowState)
  : result WorkflowState :=
  match node_fn s with
  | (Ok _, s') => Ok s'
  | (Raise e, _) => Raise e
  end.

Definition _planning_wrapper t := wrapper (planning_node agents t).
Definition _coding_wrapper t := wrapper (coding_node agents t).
Definition _testing_wrapper t := wrapper (testing_node agents t).
Definition _debugging_wrapper t := wrapper (debugging_node agents t).
Definition _documenting_wrapper t := wrapper (documenting_node agents t).

Definition node_action (n : node) (t : nat) (s : WorkflowState)
  : result WorkflowState :=
  match n with
  | planning => _planning_wrapper t s
  | coding => _coding_wrapper t s
  | testing => _testing_wrapper t s
  | debugging => _debugging_wrapper t s
  | documenting => _documenting_wrapper t s
  end.

(** The edges added in [_build_graph]. *)
Definition next_node (n : node) (s : WorkflowState) : option node :=
  match n with
  | planning => Some coding
  | coding => Some testing
  | testing => path_map (_route_after_testing s)
  | debugging => path_map (_route_after_debugging s)
  | documenting => None
  end.

Definition entry_point : node := planning.

(** The steps of the compiled graph ([workflow.compile()]): start at the
    entry point, run the node on the state, follow its edge (for testing
    and debugging, the edge the routing function names), stop at [END].
    An exception that leaves a node leaves the graph.  [t] counts the
    nodes run so far.  [fuel] is how many node executions are followed:
    [None] means that [END] was not reached within them.  The limit the
    library puts on a call is in [ainvoke_limited] below. *)
Fixpoint ainvoke_from (fuel : nat) (t : nat) (n : node) (s : WorkflowState)
  : option (result WorkflowState) :=
  match fuel with
  | O => None
  | S fuel' =>
      match node_action n t s with
      | Raise e => Some (Raise e)
      | Ok s' =>
          match next_node n s' with
          | None => Some (Ok s')
          | Some n' => ainvoke_from fuel' (S t) n' s'
          end
      end
  end.

Definition ainvoke (fuel : nat) (s : WorkflowState)
  : option (result WorkflowState) :=
  ainvoke_from fuel 0 entry_point s.

(** The visits of a run, in order. *)
Fixpoint visits_from (fuel : nat) (t : nat) (n : node) (s : WorkflowState)
  : list visit :=
  match fuel with
  | O => []
  | S fuel' =>
      match node_action n t s with
      | Raise e => []
      | Ok s' =>
          {| v_time := t; v_node := n; v_before := s; v_after := s' |} ::
          match next_node n s' with
          | None => []
          | Some n' => visits_from fuel' (S t) n' s'
          end
      end
  end.

Definition visits (fuel : nat) (s : WorkflowState) : list visit :=
  visits_from fuel 0 entry_point s.

(** The message of the library's [GraphRecursionError]; its wording is the
    library's. *)
Definition GraphRecursionError : string :=
  "Recursion limit reached without hitting a stop condition".

(** [self.graph.ainvoke(initial_state)], as [execute] calls it: without a
    config, so that the recursion limit of the library applies.  A run
    that has not reached [END] after [recursion_limit] node executions is
    stopped and the call raises [GraphRecursionError]. *)
Definition ainvoke_limited (recursion_limit : nat) (s : WorkflowState)
  : option (result WorkflowState) :=
  match ainvoke recursion_limit s with
  | Some r => Some r
  | None => Some (Raise GraphRecursionError)
  end.

End WorkflowGraph.

(** The dictionary returned by [execute]. *)
Record RunResult := {
  res_success : bool;
  res_error : option string;
  res_workflow_id : string;
  res_status : string;
  res_final_code : pyval;
  res_final_documentation : pyval;
  res_summary : dict;
  res_iteration_count : Z;
  res_completed_tasks : list string;
  res_failed_tasks : list string;
  res_error_history : list string
}.

Definition initial_state (workflow_id user_request : string)
    (max_iterations : Z) : WorkflowState :=
  new_WorkflowState workflow_id user_request PENDING max_iterations.

(** [if not workflow_id: workflow_id = str(uuid.uuid4())]: a missing or
    empty identifier is replaced by a fresh one. *)
Definition run_id_of (uuid4 : string) (given_workflow_id : option string)
  : string :=
  if truthy (opt_str given_workflow_id) then default uuid4 given_workflow_id
  else uuid4.

(** [Optional[str]], the annotation of [final_code] and
    [final_documentation]. *)
Definition is_optional_str (v : pyval) : bool :=
  match v with
  | PNone | PStr _ => true
  | _ => false
  end.

(** The message of pydantic's [ValidationError]; its wording is the
    library's. *)
Definition ValidationError : string := "validation error for WorkflowState".

(** The reconstruction of the final state in [execute]: the graph hands
    the final state back as a dictionary of its fields, and the
    constructor of [WorkflowState], called on them, validates every field
    against its annotation.  The nodes assign without validation, so
    [final_code] and [final_documentation] hold whatever the collaborators
    returned; the other fields have the type of their annotation here. *)
Definition WorkflowState_validate (fields : WorkflowState)
  : result WorkflowState :=
  if is_optional_str (final_code fields) &&
     is_optional_str (final_documentation fields)
  then Ok fields
  else Raise ValidationError.

(** [WorkflowGraph.execute].  [graph_ainvoke] is [self.graph.ainvoke]
    ([None]: the call does not return), [self_max_iterations] the ceiling
    given to the constructor and [uuid4] the identifier drawn when the
    caller passes none.  The [try] block is the graph call followed by the
    reconstruction of the final state; whatever either raises is caught. *)
Definition execute
    (graph_ainvoke : WorkflowState → option (result WorkflowState))
    (self_max_iterations : Z) (uuid4 : string)
    (user_request : string) (given_workflow_id : option string)
  : option (result RunResult) :=
  let run_id := run_id_of uuid4 given_workflow_id in
  let initial_state :=
    initial_state run_id user_request self_max_iterations in
  match
    match graph_ainvoke initial_state with
    | None => None
    | Some (Ok fields) => Some (WorkflowState_validate fields)
    | Some (Raise e) => Some (Raise e)
    end
  with
  | None => None
  | Some (Ok final_state) =>
      Some (Ok
         {| res_success := bool_decide (status final_state = COMPLETED);
            res_error := None;
            res_workflow_id := workflow_id final_state;
            res_status := status_value (status final_state);
            res_final_code := final_code final_state;
            res_final_documentation := final_documentation final_state;
            res_summary := get_summary final_state;
            res_iteration_count := iteration_count final_state;
            res_completed_tasks := completed_tasks final_state;
            res_failed_tasks := failed_tasks final_state;
            res_error_history := error_history final_state |})
  | Some (Raise e) =>
      let error_msg := "工作流执行异常: " +:+ e in
      Some (Ok
         {| res_success := false;
            res_error := Some error_msg;
            res_workflow_id := run_id;
            res_status := "failed";
            res_final_code := PNone;
            res_final_documentation := PNone;
            res_summary := ∅;
            res_iteration_count := 0;
            res_completed_tasks := [];
            res_failed_tasks := [];
            res_error_history := [error_msg] |})
  end.

(** [WorkflowGraph.get_graph_structure]: the dictionary it returns. *)
Record GraphStructure := {
  gs_nodes : list string;
  gs_edges : list (string * string);
  gs_conditional_edges : list (string * list string);
  gs_entry_point : string;
  gs_description : string
}.

Definition get_graph_structure : GraphStructure :=
  {| gs_nodes := ["planning"; "coding"; "testing"; "debugging"; "documenting"];
     gs_edges :=
       [("planning", "coding");
        ("coding", "testing");
        ("testing", "debugging");
        ("testing", "documenting");
        ("debugging", "testing");
        ("debugging", "documenting");
        ("documenting", "END")];
     gs_conditional_edges :=
       [("testing", ["debugging"; "documenting"; "end"]);
        ("debugging", ["testing"; "documenting"; "end"])];
     gs_entry_point := "planning";
     gs_description := "LangGraph驱动的多智能体协作工作流" |}.

(** The names under which [_build_graph] registers the nodes, and the
    strings the routing functions return. *)
Definition node_name (n : node) : string :=
  match n with
  | planning => "planning"
  | coding => "coding"
  | testing => "testing"
  | debugging => "debugging"
  | documenting => "documenting"
  end.

Definition route_name (r : route) : string :=
  match r with
  | to_debugging => "debugging"
  | to_testing => "testing"
  | to_documenting => "documenting"
  | to_end => "end"
  end.

(** ** agents: the code that does not talk to the model

    Of the agents, the embedding covers what is computed from the reply of
    the language model, from the context and from the outcome of the test
    process; the calls themselves stay in [Agents]. *)

(** The result of a computation that may raise, and its sequencing. *)
Definition and_then {A B} (r : result A) (k : A → result B) : result B :=
  match r with
  | Ok a => k a
  | Raise e => Raise e
  end.

(** [v.get(key, default)] on an arbitrary value: only dictionaries have
    the method. *)
Definition method_get (v : pyval) (key : string) (default : pyval)
  : result pyval :=
  match v with
  | PDict d => Ok (dict_get d key default)
  | PNone => Raise "'NoneType' object has no attribute 'get'"
  | PBool _ => Raise "'bool' object has no attribute 'get'"
  | PInt _ => Raise "'int' object has no attribute 'get'"
  | PStr _ => Raise "'str' object has no attribute 'get'"
  end.

(** [context.get(key, {}) if context else {}] *)
Definition context_get (context : option dict) (key : string) : pyval :=
  match context with
  | Some c => if truthy (PDict c) then dict_get c key (PDict ∅) else PDict ∅
  | None => PDict ∅
  end.

(** *** Code blocks in a reply ([_parse_code], [_parse_test_code],
    [_parse_fixed_code]) *)

Definition LF : Ascii.ascii := Ascii.ascii_of_nat 10.

(** [text.split('\n')] *)
Fixpoint split_lines (text : string) : list string :=
  match text with
  | EmptyString => [EmptyString]
  | String c rest =>
      if Ascii.eqb c LF then EmptyString :: split_lines rest
      else match split_lines rest with
           | line :: lines => String c line :: lines
           | [] => [String c EmptyString]
           end
  end.

(** ['\n'.join(lines)] *)
Definition join_lines (lines : list string) : string :=
  String.concat (String LF EmptyString) lines.

Section CodeBlocks.
(** [str.strip()], which the embedding does not fix. *)
Variable strip : string → string.

(** One turn of the loop over the lines; the state is [code_lines] and
    [in_code_block]. *)
Definition parse_line (st : list string * bool) (line : string)
  : list string * bool :=
  if String.prefix "```python" (strip line) then (st.1, true)
  else if String.eqb (strip line) "```" && st.2 then (st.1, false)
  else if st.2 then (st.1 ++ [line], st.2)
  else st.

Definition parse_lines (lines : list string) : list string :=
  (foldl parse_line ([], false) lines).1.

(** [TesterAgent._parse_test_code] and [DebuggerAgent._parse_fixed_code] *)
Definition _parse_test_code (response_text : string) : string :=
  join_lines (parse_lines (split_lines response_text)).

Definition _parse_fixed_code (response_text : string) : string :=
  join_lines (parse_lines (split_lines response_text)).

(** [CoderAgent._parse_code] *)
Definition _parse_code (response_text : string) : dict :=
  let code := join_lines (parse_lines (split_lines response_text)) in
  <["code" := PStr code]>
  (<["raw_response" := PStr response_text]>
  (<["language" := PStr "python"]>
  (<["status" := PStr "generated"]> ∅))).

End CodeBlocks.

(** *** The tester *)

(** The head of [TesterAgent.execute]: the code to test, or the exception
    raised when there is none. *)
Definition tester_code_content (context : option dict) : result pyval :=
  let generated_code := context_get context "generated_code" in
  and_then (method_get generated_code "code" (PStr "")) (λ code_content,
  if negb (truthy code_content) then Raise "没有可测试的代码"
  else Ok code_content).

(** How the call of [subprocess.run] in [_execute_tests] comes back. *)
Inductive run_outcome :=
| Completed (returncode : Z) (stdout stderr : string)
| TimeoutExpired
| RunError (e : string).

Definition _execute_tests (outcome : run_outcome) : dict :=
  match outcome with
  | Completed returncode stdout stderr =>
      <["success" := PBool (returncode =? 0)%Z]>
      (<["stdout" := PStr stdout]>
      (<["stderr" := PStr stderr]>
      (<["return_code" := PInt returncode]> ∅)))
  | TimeoutExpired =>
      <["success" := PBool false]>
      (<["stdout" := PStr ""]>
      (<["stderr" := PStr "测试执行超时"]>
      (<["return_code" := PInt (-1)]> ∅)))
  | RunError e =>
      <["success" := PBool false]>
      (<["stdout" := PStr ""]>
      (<["stderr" := PStr e]>
      (<["return_code" := PInt (-1)]> ∅)))
  end.

(** The dictionary [TesterAgent.execute] returns. *)
Definition tester_result_of (test_code test_file_path : string)
    (execution_result : dict) : dict :=
  <["test_code" := PStr test_code]>
  (<["test_file_path" := PStr test_file_path]>
  (<["execution_result" := PDict execution_result]>
  (<["status" := PStr (if truthy (py_get execution_result "success")
                       then "passed" else "failed")]> ∅))).

(** *** The debugger *)

(** The test at the head of [DebuggerAgent.execute]: whether it returns
    ["no_debugging_needed"] without calling the model. *)
Definition debugger_skips (context : option dict) : result bool :=
  let test_result := context_get context "test_result" in
  if negb (truthy test_result) then Ok true
  else and_then (method_get test_result "status" PNone) (λ st,
       Ok (eq_str st "passed")).

(** *** The documenter *)

(** [DocumenterAgent._get_final_code] *)
Definition _get_final_code (context : option dict) : result pyval :=
  match context with
  | None => Ok (PStr "")
  | Some c =>
      if negb (truthy (PDict c)) then Ok (PStr "")
      else
        let debug_result := dict_get c "debug_result" (PDict ∅) in
        and_then
          (if truthy debug_result
           then method_get debug_result "fixed_code" PNone
           else Ok debug_result)
          (λ fixed_code,
           if truthy fixed_code then Ok fixed_code
           else
             let generated_code := dict_get c "generated_code" (PDict ∅) in
             method_get generated_code "code" (PStr ""))
  end.

(** The head of [DocumenterAgent.execute]: the code to document, or the
    exception raised when there is none. *)
Definition documenter_final_code (context : option dict) : result pyval :=
  and_then (_get_final_code context) (λ final_code,
  if negb (truthy final_code) then Raise "没有可文档化的代码"
  else Ok final_code).

(** *** The planner *)

Section Planner.
Variable strip : string → string.

(** The markers [_extract_tasks] looks for at the start of a line. *)
Definition task_marker (line : string) : bool :=
  String.prefix "1." line || String.prefix "2." line ||
  String.prefix "3." line || String.prefix "4." line ||
  String.prefix "5." line || String.prefix "-" line.

Definition task_of (line : string) : dict :=
  <["description" := PStr line]>
  (<["status" := PStr "pending"]>
  (<["priority" := PStr "medium"]> ∅)).

(** One turn of the loop of [PlannerAgent._extract_tasks]. *)
Definition extract_line (tasks : list dict) (line : string) : list dict :=
  let line := strip line in
  if truthy (PStr line) && task_marker line
  then tasks ++ [task_of line]
  else tasks.

(** [PlannerAgent._extract_tasks] *)
Definition _extract_tasks (plan_text : string) : list dict :=
  foldl extract_line [] (split_lines plan_text).

End Planner.

(** * Vocabulary of the statements *)

(** ** Node executions *)

Section Executions.
Variable agents : Agents.

(** The collaborator call made by node [n] when it runs at time [t] on
    state [s]. *)
Definition agent_call (n : node) (t : nat) (s : WorkflowState)
  : result dict :=
  match n with
  | planning => planner_execute agents t (user_request s)
  | coding => coder_execute agents t (user_request s) (coding_context s)
  | testing => tester_execute agents t (user_request s) (testing_context s)
  | debugging =>
      debugger_execute agents t (user_request s) (debugging_context s)
  | documenting =>
      documenter_execute agents t (user_request s) (documenting_context s)
  end.

Definition node_body (n : node) (t : nat) : M unit :=
  match n with
  | planning => planning_node agents t
  | coding => coding_node agents t
  | testing => testing_node agents t
  | debugging => debugging_node agents t
  | documenting => documenting_node agents t
  end.

(** The state a node leaves behind. *)
Definition exec_node (n : node) (t : nat) (s : WorkflowState)
  : WorkflowState := (node_body n t s).2.

(** The status a node writes on entry. *)
Definition node_status (n : node) : WorkflowStatus :=
  match n with
  | planning => PLANNING
  | coding => CODING
  | testing => TESTING
  | debugging => DEBUGGING
  | documenting => DOCUMENTING
  end.

(** What a visit records is one execution of its node. *)
Definition visit_ok (v : visit) : Prop :=
  v_after v = exec_node (v_node v) (v_time v) (v_before v).

End Executions.

(** ** Bookkeeping of a visit *)

(** The task label a node records in [completed_tasks] or
    [failed_tasks]. *)
Definition node_task (n : node) : string :=
  match n with
  | planning => "规划"
  | coding => "编码"
  | testing => "测试"
  | debugging => "调试"
  | documenting => "文档生成"
  end.

(** The head of the message a node records when its call raises. *)
Definition node_error_prefix (n : node) : string :=
  match n with
  | planning => "规划失败: "
  | coding => "编码失败: "
  | testing => "测试失败: "
  | debugging => "调试失败: "
  | documenting => "文档生成失败: "
  end.

(** The messages a visit adds to [error_history]. *)
Definition visit_errors (agents : Agents) (v : visit) : list string :=
  match agent_call agents (v_node v) (v_time v) (v_before v) with
  | Ok _ => []
  | Raise e => [node_error_prefix (v_node v) +:+ e]
  end.

(** A visit to the debugging node whose collaborator returned. *)
Definition successful_repair (agents : Agents) (v : visit) : bool :=
  match v_node v, agent_call agents (v_node v) (v_time v) (v_before v) with
  | debugging, Ok _ => true
  | _, _ => false
  end.

(** The state a run is in after the visits [vs], started from [s0]. *)
Definition last_state (s0 : WorkflowState) (vs : list visit)
  : WorkflowState :=
  match last vs with
  | Some v => v_after v
  | None => s0
  end.

(** The record a repair builds around a non-empty [fixed_code] and stores
    in the implement slot. *)
Definition repaired_code (fixed_code : pyval) (iteration : Z) : dict :=
  <["code" := fixed_code]>
  (<["status" := PStr "fixed"]>
  (<["iteration" := PInt iteration]> ∅)).

(** Every result slot is mirrored in the context under its key. *)
Definition mirrored (s : WorkflowState) : Prop :=
  context s !! "plan" = PDict <$> planner_result s ∧
  context s !! "generated_code" = PDict <$> coder_result s ∧
  context s !! "test_result" = PDict <$> tester_result s ∧
  context s !! "debug_result" = PDict <$> debugger_result s ∧
  context s !! "documentation" = PDict <$> documenter_result s.

(** The dictionary [execute] builds from the final state of a run. *)
Definition run_result (final_state : WorkflowState) : RunResult :=
  {| res_success := bool_decide (status final_state = COMPLETED);
     res_error := None;
     res_workflow_id := workflow_id final_state;
     res_status := status_value (status final_state);
     res_final_code := final_code final_state;
     res_final_documentation := final_documentation final_state;
     res_summary := get_summary final_state;
     res_iteration_count := iteration_count final_state;
     res_completed_tasks := completed_tasks final_state;
     res_failed_tasks := failed_tasks final_state;
     res_error_history := error_history final_state |}.

(** The dictionary [execute] builds in its [except] branch. *)
Definition failure_result (run_id e : string) : RunResult :=
  let error_msg := "工作流执行异常: " +:+ e in
  {| res_success := false;
     res_error := Some error_msg;
     res_workflow_id := run_id;
     res_status := "failed";
     res_final_code := PNone;
     res_final_documentation := PNone;
     res_summary := ∅;
     res_iteration_count := 0;
     res_completed_tasks := [];
     res_failed_tasks := [];
     res_error_history := [error_msg] |}.

(** The final state passes the validation of its reconstruction. *)
Definition outputs_valid (s : WorkflowState) : Prop :=
  is_optional_str (final_code s) = true ∧
  is_optional_str (final_documentation s) = true.

(** ** Replies and guards of the agents *)

(** The lines the loop of the parsers keeps, by recursion on the lines
    still to read. *)
Fixpoint kept_lines (strip : string → string) (in_code_block : bool)
    (lines : list string) : list string :=
  match lines with
  | [] => []
  | line :: rest =>
      if String.prefix "```python" (strip line)
      then kept_lines strip true rest
      else if String.eqb (strip line) "```" && in_code_block
      then kept_lines strip false rest
      else if in_code_block then line :: kept_lines strip true rest
      else kept_lines strip false rest
  end.

(** A line that opens, and a line that closes, a code block. *)
Definition opens_block (strip : string → string) (line : string) : Prop :=
  String.prefix "```python" (strip line) = true.

Definition closes_block (strip : string → string) (line : string) : Prop :=
  strip line = "```".

(** A line without line feed. *)
Definition one_line (line : string) : Prop :=
  ∀ n, String.get n line ≠ Some LF.

(** The test process ran to its end and exited with code 0. *)
Definition exit_ok (outcome : run_outcome) : bool :=
  match outcome with
  | Completed returncode _ _ => (returncode =? 0)%Z
  | _ => false
  end.

(** The tester and the documenter of [agents] raise what the heads of
    [TesterAgent.execute] and [DocumenterAgent.execute] raise. *)
Definition respects_tester_guard (agents : Agents) : Prop :=
  ∀ t request context e,
    tester_code_content (Some context) = Raise e →
    tester_execute agents t request context = Raise e.

Definition respects_documenter_guard (agents : Agents) : Prop :=
  ∀ t request context e,
    documenter_final_code (Some context) = Raise e →
    documenter_execute agents t request context = Raise e.

(** The tester of [agents] returns what [TesterAgent.execute] builds from
    a run of the test process. *)
Definition tester_reports (agents : Agents) : Prop :=
  ∀ t request context d,
    tester_execute agents t request context = Ok d →
    ∃ test_code test_file_path outcome,
      d = tester_result_of test_code test_file_path (_execute_tests outcome).

(** ** Predicates on states and collaborators *)

(** The verify result records the outcome [lit]. *)
Definition test_outcome_is (lit : string) (s : WorkflowState) : Prop :=
  ∃ d, tester_result s = Some d ∧ py_get d "status" = PStr lit.

(** What holds of the counter when node [n] is about to run. *)
Definition within_ceiling (n : node) (s : WorkflowState) : Prop :=
  (0 ≤ iteration_count s ≤ max_iterations s)%Z ∧
  (n = debugging → (iteration_count s < max_iterations s)%Z).

(** Until the documenting node has run, the final outputs are unset. *)
Definition outputs_unset (s : WorkflowState) : Prop :=
  final_code s = PNone ∧ final_documentation s = PNone.

(** The artifact a result slot holds under [key], in the words of the
    specification: present when the stage has produced a result and that
    result carries a non-empty (truthy) entry under [key]. *)
Definition artifact (slot : option dict) (key : string) : option pyval :=
  match slot with
  | Some d =>
      match d !! key with
      | Some v => if truthy v then Some v else None
      | None => None
      end
  | None => None
  end.

(** Whatever the repair slot holds as [fixed_code], the implement slot
    holds as [code]. *)
Definition repair_copied (s : WorkflowState) : Prop :=
  ∀ v, artifact (debugger_result s) "fixed_code" = Some v →
       artifact (coder_result s) "code" = Some v.

(** Before the coding node has run, nothing has been repaired. *)
Definition one_artifact (n : node) (s : WorkflowState) : Prop :=
  (n = planning ∨ n = coding → debugger_result s = None) ∧ repair_copied s.

(** What the head of an agent found, against the code of the implement
    slot: the code when it went on, no code when it raised. *)
Definition found_code (found : result pyval) (s : WorkflowState) : Prop :=
  match found with
  | Ok code => artifact (coder_result s) "code" = Some code
  | Raise _ => artifact (coder_result s) "code" = None
  end.

(** What holds of every state of a run: the context mirrors the slots and
    a repair has been copied into the implement slot. *)
Definition well_kept (n : node) (s : WorkflowState) : Prop :=
  mirrored s ∧ one_artifact n s.

(** The debugging node is only entered on a recorded failure. *)
Definition repair_is_due (n : node) (s : WorkflowState) : Prop :=
  n = debugging → test_outcome_is "failed" s.

(** The verify slot when node [n] is about to run: a record of a passed
    or failed test run, or nothing, and then no repair has run either. *)
Definition test_record_kept (n : node) (s : WorkflowState) : Prop :=
  match tester_result s with
  | Some d => py_get d "status" = PStr "passed" ∨
              py_get d "status" = PStr "failed"
  | None => n ≠ debugging ∧
            iteration_count s = 0%Z ∧ debugger_result s = None
  end.

(** The graph, started at node [n] on state [s] at time [t], reaches
    [END] after at most [k] node executions. *)
Definition finishes_within (agents : Agents) (k : nat) (t : nat) (n : node)
    (s : WorkflowState) : Prop :=
  ∃ fuel r, fuel ≤ k ∧ ainvoke_from agents fuel t n s = Some r.

(** Every call of the debugger returns. *)
Definition debugger_always_returns (agents : Agents) : Prop :=
  ∀ t s, ∃ d, agent_call agents debugging t s = Ok d.

(** The run identifier of a state. *)
Definition workflow_id_is (id : string) (s : WorkflowState) : Prop :=
  workflow_id s = id.

(** Every collaborator call of the run returns. *)
Definition every_call_returns (agents : Agents) : Prop :=
  ∀ n t s, ∃ d, agent_call agents n t s = Ok d.

Definition every_test_fails (agents : Agents) : Prop :=
  ∀ t s d, agent_call agents testing t s = Ok d →
           py_get d "status" = PStr "failed".

(** ** Collaborators used in the worked runs *)

Definition a_plan : dict := {["plan" := PStr "1. parse 2. add"]}.
Definition a_code : dict := {["code" := PStr "def add(a, b): return a + b"]}.
Definition a_fix : dict :=
  <["fixed_code" := PStr "def add(a, b): return int(a) + int(b)"]>
  {["status" := PStr "fixed"]}.
Definition a_doc : dict := {["readme" := PStr "# add"]}.
Definition tests_failed : dict := {["status" := PStr "failed"]}.
Definition tests_passed : dict := {["status" := PStr "passed"]}.

(** Every call returns and every test run fails. *)
Definition agents_tests_fail : Agents :=
  {| planner_execute := λ _ _, Ok a_plan;
     coder_execute := λ _ _ _, Ok a_code;
     tester_execute := λ _ _ _, Ok tests_failed;
     debugger_execute := λ _ _ _, Ok a_fix;
     documenter_execute := λ _ _ _, Ok a_doc |}.

(** Every call returns and the tests pass. *)
Definition agents_tests_pass : Agents :=
  {| planner_execute := λ _ _, Ok a_plan;
     coder_execute := λ _ _ _, Ok a_code;
     tester_execute := λ _ _ _, Ok tests_passed;
     debugger_execute := λ _ _ _, Ok a_fix;
     documenter_execute := λ _ _ _, Ok a_doc |}.

(** The tests fail and the debugger raises on every call. *)
Definition agents_debugger_raises : Agents :=
  {| planner_execute := λ _ _, Ok a_plan;
     coder_execute := λ _ _ _, Ok a_code;
     tester_execute := λ _ _ _, Ok tests_failed;
     debugger_execute := λ _ _ _, Raise "model unavailable";
     documenter_execute := λ _ _ _, Ok a_doc |}.

(** The coder raises, so the tester finds nothing to test and raises too
    ([TesterAgent.execute] raises [ValueError] without code). *)
Definition agents_tester_raises : Agents :=
  {| planner_execute := λ _ _, Ok a_plan;
     coder_execute := λ _ _ _, Raise "model unavailable";
     tester_execute := λ _ _ _, Raise "没有可测试的代码";
     debugger_execute := λ _ _ _, Ok a_fix;
     documenter_execute := λ _ _ _, Ok a_doc |}.

(** The report of a test run that passed. *)
Definition a_report : dict :=
  tester_result_of "def test_add(): assert add(1, 2) == 3"
    "tests/test_add.py" (_execute_tests (Completed 0 "1 passed" "")).

(** The tester and the documenter start as [TesterAgent.execute] and
    [DocumenterAgent.execute] do; the coder answers [coder]. *)
Definition agents_guarded (coder : result dict) : Agents :=
  {| planner_execute := λ _ _, Ok a_plan;
     coder_execute := λ _ _ _, coder;
     tester_execute := λ _ _ context,
       and_then (tester_code_content (Some context)) (λ _, Ok a_report);
     debugger_execute := λ _ _ _, Ok a_fix;
     documenter_execute := λ _ _ context,
       and_then (documenter_final_code (Some context)) (λ _, Ok a_doc) |}.

(** The tests pass and the documenter raises. *)
Definition agents_documenter_raises : Agents :=
  {| planner_execute := λ _ _, Ok a_plan;
     coder_execute := λ _ _ _, Ok a_code;
     tester_execute := λ _ _ _, Ok tests_passed;
     debugger_execute := λ _ _ _, Ok a_fix;
     documenter_execute := λ _ _ _, Raise "model unavailable" |}.

(** A state with the given status, verify result, counter and ceiling. *)
Definition state_with (st : WorkflowStatus) (tests : option dict)
    (count ceiling : Z) : WorkflowState :=
  set_tester_result tests
    (set_iteration_count count
       (update_status st (initial_state "run-0" "add two numbers" ceiling))).

(** The visits of a run as the node names with the iteration counter each
    node left. *)
Definition stage_sequence (vs : list visit) : list (node * Z) :=
  (λ v, (v_node v, iteration_count (v_after v))) <$> vs.

(** * Properties *)

(** ** Run state *)

Lemma can_continue_iteration_spec s :
  can_continue_iteration s = true ↔ (iteration_count s < max_iterations s)%Z.
Proof. unfold can_continue_iteration. apply Z.ltb_lt. Qed.

Lemma eq_str_spec v lit : eq_str v lit = true ↔ v = PStr lit.
Proof.
  destruct v; simpl; try (split; [discriminate | congruence]).
  rewrite String.eqb_eq. split; congruence.
Qed.

Lemma NoDup_snoc (l : list string) (x : string) :
  NoDup l → x ∉ l → NoDup (l ++ [x]).
Proof.
  intros Hl Hx. apply NoDup_app. split_and!; [done | | apply NoDup_singleton].
  by intros y Hy ->%list_elem_of_singleton.
Qed.

Lemma add_completed_task_NoDup task s :
  NoDup (completed_tasks s) →
  NoDup (completed_tasks (add_completed_task task s)).
Proof.
  intros Hl. unfold add_completed_task. case_bool_decide; [done |].
  by apply NoDup_snoc.
Qed.

Lemma add_failed_task_NoDup task s :
  NoDup (failed_tasks s) → NoDup (failed_tasks (add_failed_task task s)).
Proof.
  intros Hl. unfold add_failed_task. case_bool_decide; [done |].
  by apply NoDup_snoc.
Qed.

Lemma add_completed_task_idem task s :
  add_completed_task task (add_completed_task task s) = add_completed_task task s.
Proof.
  unfold add_completed_task.
  destruct (bool_decide (task ∈ completed_tasks s)) eqn:E.
  - by rewrite E.
  - rewrite bool_decide_eq_true_2; [done |]. simpl. set_solver.
Qed.

Lemma add_failed_task_idem task s :
  add_failed_task task (add_failed_task task s) = add_failed_task task s.
Proof.
  unfold add_failed_task.
  destruct (bool_decide (task ∈ failed_tasks s)) eqn:E.
  - by rewrite E.
  - rewrite bool_decide_eq_true_2; [done |]. simpl. set_solver.
Qed.

(** ** Stage executors *)

Section Stages.
Variable agents : Agents.

Ltac open_node :=
  unfold exec_node, node_body, planning_node, coding_node, testing_node,
    debugging_node, documenting_node, bind, try_except, modify, gets,
    await, ret.

(** Only beta, iota and zeta steps and the pair projections: the state
    expressions stay as the setters wrote them. *)
Ltac step := lazy beta iota zeta delta [fst snd].

Ltac name_call t s :=
  match goal with
  | |- context [planner_execute agents t ?r] =>
      change (planner_execute agents t r)
        with (agent_call agents planning t s)
  | |- context [coder_execute agents t ?r ?c] =>
      change (coder_execute agents t r c)
        with (agent_call agents coding t s)
  | |- context [tester_execute agents t ?r ?c] =>
      change (tester_execute agents t r c)
        with (agent_call agents testing t s)
  | |- context [debugger_execute agents t ?r ?c] =>
      change (debugger_execute agents t r c)
        with (agent_call agents debugging t s)
  | |- context [documenter_execute agents t ?r ?c] =>
      change (documenter_execute agents t r c)
        with (agent_call agents documenting t s)
  end.

Ltac split_tasks :=
  unfold add_completed_task, add_failed_task; repeat case_bool_decide.

(** Run a node symbolically, with one case per outcome of its call. *)
Ltac run_call t s :=
  open_node; step; name_call t s;
  destruct (agent_call agents _ t s) eqn:?; step;
  try (destruct (truthy _) eqn:?; step).

Ltac run_node n t s := destruct n; run_call t s; split_tasks.

(** No stage executor lets an exception escape. *)
Lemma node_body_returns n t s :
  node_body agents n t s = (Ok tt, exec_node agents n t s).
Proof. run_node n t s; reflexivity. Qed.

Lemma node_action_exec n t s :
  node_action agents n t s = Ok (exec_node agents n t s).
Proof.
  pose proof (node_body_returns n t s) as H.
  destruct n; unfold node_action, _planning_wrapper, _coding_wrapper,
    _testing_wrapper, _debugging_wrapper, _documenting_wrapper, wrapper;
    simpl in H; rewrite H; reflexivity.
Qed.

Lemma exec_max_iterations n t s :
  max_iterations (exec_node agents n t s) = max_iterations s.
Proof. run_node n t s; reflexivity. Qed.

(** Only a repair whose collaborator returned counts as an iteration. *)
Lemma exec_iteration_count n t s :
  iteration_count (exec_node agents n t s) =
    match n, agent_call agents n t s with
    | debugging, Ok _ => (iteration_count s + 1)%Z
    | _, _ => iteration_count s
    end.
Proof. run_node n t s; reflexivity. Qed.

Lemma exec_status n t s :
  status (exec_node agents n t s) =
    match n, agent_call agents n t s with
    | documenting, Ok _ => COMPLETED
    | _, _ => node_status n
    end.
Proof. run_node n t s; reflexivity. Qed.

Lemma exec_tester_result n t s :
  tester_result (exec_node agents n t s) =
    match n, agent_call agents n t s with
    | testing, Ok d => Some d
    | _, _ => tester_result s
    end.
Proof. run_node n t s; reflexivity. Qed.

Lemma exec_final_code n t s :
  final_code (exec_node agents n t s) =
    match n, agent_call agents n t s with
    | documenting, Ok _ => get_latest_code s
    | _, _ => final_code s
    end.
Proof. run_node n t s; reflexivity. Qed.

Lemma exec_final_documentation n t s :
  final_documentation (exec_node agents n t s) =
    match n, agent_call agents n t s with
    | documenting, Ok d => dict_get d "readme" (PStr "")
    | _, _ => final_documentation s
    end.
Proof. run_node n t s; reflexivity. Qed.

Lemma exec_status_not_FAILED n t s : status (exec_node agents n t s) ≠ FAILED.
Proof.
  rewrite exec_status.
  destruct n; cbn -[agent_call]; try destruct (agent_call agents _ t s); done.
Qed.

Lemma exec_completed_tasks_NoDup n t s :
  NoDup (completed_tasks s) → NoDup (completed_tasks (exec_node agents n t s)).
Proof.
  intros Hs. run_node n t s; simpl in *;
    first [ exact Hs | by apply NoDup_snoc ].
Qed.

Lemma exec_failed_tasks_NoDup n t s :
  NoDup (failed_tasks s) → NoDup (failed_tasks (exec_node agents n t s)).
Proof.
  intros Hs. run_node n t s; simpl in *;
    first [ exact Hs | by apply NoDup_snoc ].
Qed.

(** *** What a node writes to the remaining fields *)

Lemma exec_workflow_id n t s :
  workflow_id (exec_node agents n t s) = workflow_id s.
Proof. run_node n t s; reflexivity. Qed.

Lemma exec_user_request n t s :
  user_request (exec_node agents n t s) = user_request s.
Proof. run_node n t s; reflexivity. Qed.

Lemma exec_error_history n t s :
  error_history (exec_node agents n t s) =
    error_history s ++
    match agent_call agents n t s with
    | Ok _ => []
    | Raise e => [node_error_prefix n +:+ e]
    end.
Proof. run_node n t s; simpl; by rewrite ?app_nil_r. Qed.

Lemma exec_last_error n t s :
  last_error (exec_node agents n t s) =
    match agent_call agents n t s with
    | Ok _ => last_error s
    | Raise e => Some (node_error_prefix n +:+ e)
    end.
Proof. run_node n t s; reflexivity. Qed.

Lemma exec_completed_tasks n t s :
  completed_tasks (exec_node agents n t s) =
    match agent_call agents n t s with
    | Ok _ => completed_tasks (add_completed_task (node_task n) s)
    | Raise _ => completed_tasks s
    end.
Proof. run_node n t s; simpl in *; done. Qed.

Lemma exec_failed_tasks n t s :
  failed_tasks (exec_node agents n t s) =
    match agent_call agents n t s with
    | Ok _ => failed_tasks s
    | Raise _ => failed_tasks (add_failed_task (node_task n) s)
    end.
Proof. run_node n t s; simpl in *; done. Qed.

Lemma exec_planner_result n t s :
  planner_result (exec_node agents n t s) =
    match n, agent_call agents n t s with
    | planning, Ok d => Some d
    | _, _ => planner_result s
    end.
Proof. run_node n t s; reflexivity. Qed.

Lemma exec_debugger_result n t s :
  debugger_result (exec_node agents n t s) =
    match n, agent_call agents n t s with
    | debugging, Ok d => Some d
    | _, _ => debugger_result s
    end.
Proof. run_node n t s; reflexivity. Qed.

Lemma exec_documenter_result n t s :
  documenter_result (exec_node agents n t s) =
    match n, agent_call agents n t s with
    | documenting, Ok d => Some d
    | _, _ => documenter_result s
    end.
Proof. run_node n t s; reflexivity. Qed.

Lemma exec_coder_result n t s :
  coder_result (exec_node agents n t s) =
    match n, agent_call agents n t s with
    | coding, Ok d => Some d
    | debugging, Ok d =>
        if truthy (py_get d "fixed_code")
        then Some (repaired_code (py_get d "fixed_code") (iteration_count s))
        else coder_result s
    | _, _ => coder_result s
    end.
Proof.
  destruct n; run_call t s; rewrite ?Heqb; split_tasks; reflexivity.
Qed.

Lemma exec_mirrored n t s :
  mirrored s → mirrored (exec_node agents n t s).
Proof.
  intros (Hp & Hc & Ht & Hd & Hdoc). unfold mirrored.
  run_node n t s; simpl;
    repeat first [ rewrite lookup_insert_eq
                 | rewrite lookup_insert_ne by done ];
    done.
Qed.

End Stages.

(** ** Routing *)

Lemma needs_debugging_true s :
  needs_debugging s = true ↔
  test_outcome_is "failed" s ∧ can_continue_iteration s = true.
Proof.
  unfold needs_debugging, test_outcome_is. destruct (tester_result s) as [d|].
  - rewrite andb_true_iff, eq_str_spec. split.
    + intros [Hd Hc]. eauto.
    + intros [(d' & [= <-] & Hd) Hc]. done.
  - split; [done |]. by intros [(d & ? & _) _].
Qed.

Lemma should_generate_documentation_true s :
  should_generate_documentation s = true ↔ test_outcome_is "passed" s.
Proof.
  unfold should_generate_documentation, test_outcome_is.
  destruct (tester_result s) as [d|].
  - rewrite eq_str_spec. split; [eauto |]. by intros (d' & [= <-] & Hd).
  - split; [done |]. by intros (d & ? & _).
Qed.

Lemma test_outcome_is_inj lit1 lit2 s :
  test_outcome_is lit1 s → test_outcome_is lit2 s → lit1 = lit2.
Proof. intros (d & Hd & H1) (d' & Hd' & H2). congruence. Qed.

Lemma route_after_testing_ceiling s :
  status s ≠ FAILED → can_continue_iteration s = false →
  _route_after_testing s = to_documenting.
Proof.
  intros Hst Hc. unfold _route_after_testing.
  rewrite bool_decide_eq_false_2 by done. by rewrite Hc.
Qed.

Lemma route_after_testing_failed s :
  status s ≠ FAILED → can_continue_iteration s = true →
  test_outcome_is "failed" s → _route_after_testing s = to_debugging.
Proof.
  intros Hst Hc Hf. unfold _route_after_testing, should_debug.
  rewrite bool_decide_eq_false_2 by done. rewrite Hc. simpl.
  by rewrite (proj2 (needs_debugging_true s)).
Qed.

Lemma route_after_testing_passed s :
  status s ≠ FAILED → test_outcome_is "passed" s →
  _route_after_testing s = to_documenting.
Proof.
  intros Hst Hp. unfold _route_after_testing, should_debug.
  rewrite bool_decide_eq_false_2 by done.
  destruct (can_continue_iteration s); simpl; [| done].
  destruct (needs_debugging s) eqn:Hn.
  - apply needs_debugging_true in Hn as [Hf _].
    by pose proof (test_outcome_is_inj _ _ _ Hf Hp).
  - by rewrite (proj2 (should_generate_documentation_true s)).
Qed.

Lemma route_after_testing_other s :
  status s ≠ FAILED → can_continue_iteration s = true →
  ¬ test_outcome_is "failed" s → ¬ test_outcome_is "passed" s →
  _route_after_testing s = to_end.
Proof.
  intros Hst Hc Hnf Hnp. unfold _route_after_testing, should_debug.
  rewrite bool_decide_eq_false_2 by done. rewrite Hc. simpl.
  destruct (needs_debugging s) eqn:Hn.
  { apply needs_debugging_true in Hn as [Hf _]. done. }
  destruct (should_generate_documentation s) eqn:Hg; [| done].
  by apply should_generate_documentation_true in Hg.
Qed.

Lemma route_after_testing_debugging s :
  _route_after_testing s = to_debugging →
  (iteration_count s < max_iterations s)%Z.
Proof.
  unfold _route_after_testing, should_debug. case_bool_decide; [done |].
  destruct (can_continue_iteration s) eqn:Hc; simpl; [| done].
  intros _. by apply can_continue_iteration_spec.
Qed.

Lemma route_after_debugging_ceiling s :
  status s ≠ FAILED → can_continue_iteration s = false →
  _route_after_debugging s = to_documenting.
Proof.
  intros Hst Hc. unfold _route_after_debugging.
  rewrite bool_decide_eq_false_2 by done. by rewrite Hc.
Qed.

Lemma route_after_debugging_failed s :
  status s ≠ FAILED → can_continue_iteration s = true →
  test_outcome_is "failed" s → _route_after_debugging s = to_testing.
Proof.
  intros Hst Hc Hf. unfold _route_after_debugging, should_continue_iteration.
  rewrite bool_decide_eq_false_2 by done. rewrite Hc. simpl.
  by rewrite (proj2 (needs_debugging_true s)).
Qed.

(** The routing after a repair never leads back to the repair node. *)
Lemma route_after_debugging_not_debugging s :
  _route_after_debugging s ≠ to_debugging.
Proof.
  unfold _route_after_debugging. case_bool_decide; [done |].
  destruct (negb _); [done |]. by destruct (should_continue_iteration s).
Qed.

(** ** The graph engine *)

Section Engine.
Variable agents : Agents.

Lemma ainvoke_from_S fuel t n s :
  ainvoke_from agents (S fuel) t n s =
    match next_node n (exec_node agents n t s) with
    | None => Some (Ok (exec_node agents n t s))
    | Some n' => ainvoke_from agents fuel (S t) n' (exec_node agents n t s)
    end.
Proof. cbn [ainvoke_from]. by rewrite node_action_exec. Qed.

Lemma visits_from_S fuel t n s :
  visits_from agents (S fuel) t n s =
    {| v_time := t; v_node := n; v_before := s;
       v_after := exec_node agents n t s |} ::
    match next_node n (exec_node agents n t s) with
    | None => []
    | Some n' => visits_from agents fuel (S t) n' (exec_node agents n t s)
    end.
Proof. cbn [visits_from]. by rewrite node_action_exec. Qed.

(** Induction along a run: a property of the pair (node about to run,
    state it receives) that every edge preserves holds at every visit. *)
Lemma visits_from_invariant (P : node → WorkflowState → Prop) :
  (∀ t n s n', P n s → next_node n (exec_node agents n t s) = Some n' →
               P n' (exec_node agents n t s)) →
  ∀ fuel t n s, P n s →
    Forall (λ v, P (v_node v) (v_before v) ∧ visit_ok agents v)
           (visits_from agents fuel t n s).
Proof.
  intros Hstep. induction fuel as [|fuel IH]; intros t n s HP.
  { constructor. }
  rewrite visits_from_S. constructor; [done |].
  destruct (next_node n _) as [n'|] eqn:Hnext; [| constructor].
  apply IH. by eapply Hstep.
Qed.

(** A visit after which no edge leaves ends the run with its state. *)
Lemma visits_from_END fuel t n s v :
  v ∈ visits_from agents fuel t n s →
  next_node (v_node v) (v_after v) = None →
  ainvoke_from agents fuel t n s = Some (Ok (v_after v)).
Proof.
  revert t n s. induction fuel as [|fuel IH]; intros t n s Hv Hend.
  { by apply not_elem_of_nil in Hv. }
  rewrite visits_from_S in Hv. rewrite ainvoke_from_S.
  apply elem_of_cons in Hv as [-> | Hv].
  - simpl in Hend. by rewrite Hend.
  - destruct (next_node n _) as [n'|]; [by apply IH |].
    by apply not_elem_of_nil in Hv.
Qed.

(** A collaborator failure never surfaces as a fault of the graph: every
    stage executor catches it. *)
Lemma ainvoke_from_no_fault fuel t n s e :
  ainvoke_from agents fuel t n s ≠ Some (Raise e).
Proof.
  revert t n s. induction fuel as [|fuel IH]; intros t n s; [done |].
  rewrite ainvoke_from_S. destruct (next_node n _); [apply IH | done].
Qed.

(** More fuel does not change the outcome of a run that ended. *)
Lemma ainvoke_from_more fuel k t n s r :
  ainvoke_from agents fuel t n s = Some r →
  ainvoke_from agents (fuel + k) t n s = Some r.
Proof.
  revert t n s. induction fuel as [|fuel IH]; intros t n s; [done |].
  rewrite Nat.add_succ_l, !ainvoke_from_S.
  destruct (next_node n _); [apply IH | done].
Qed.

(** With less fuel the engine records a prefix of the same visits. *)
Lemma visits_from_take fuel k t n s :
  visits_from agents fuel t n s
  = take fuel (visits_from agents (fuel + k) t n s).
Proof.
  revert t n s. induction fuel as [|fuel IH]; intros t n s; [done |].
  rewrite Nat.add_succ_l, !visits_from_S. cbn [take]. f_equal.
  destruct (next_node n _); [apply IH | by destruct fuel].
Qed.

(** *** The iteration ceiling *)

Lemma within_ceiling_exec n t s :
  within_ceiling n s →
  (0 ≤ iteration_count (exec_node agents n t s)
     ≤ max_iterations (exec_node agents n t s))%Z.
Proof.
  intros [Hb Hd]. rewrite exec_iteration_count, exec_max_iterations.
  destruct n; try done.
  specialize (Hd eq_refl). destruct (agent_call _ _ _ _); lia.
Qed.

Lemma within_ceiling_step t n s n' :
  within_ceiling n s → next_node n (exec_node agents n t s) = Some n' →
  within_ceiling n' (exec_node agents n t s).
Proof.
  intros Hc Hnext. split; [by apply within_ceiling_exec |].
  intros ->. destruct n; simpl in Hnext; try done.
  - apply route_after_testing_debugging.
    by destruct (_route_after_testing _).
  - pose proof (route_after_debugging_not_debugging
                  (exec_node agents debugging t s)).
    by destruct (_route_after_debugging _).
Qed.

End Engine.

(** * The claims *)

(** ** Run-state queries *)

Lemma slot_has_artifact slot key :
  slot_has slot key = bool_decide (is_Some (artifact slot key)).
Proof.
  unfold slot_has, artifact, py_get, dict_get.
  destruct slot as [d|]; [| done].
  destruct (d !! key) as [v|] eqn:Hv.
  - assert (truthy (PDict d) = true) as ->.
    { simpl. apply negb_true_iff, bool_decide_eq_false_2.
      intros Hd%dom_empty_iff_L. by rewrite Hd, lookup_empty in Hv. }
    rewrite andb_true_l. by destruct (truthy v).
  - change (truthy PNone) with false. by rewrite andb_false_r.
Qed.

Lemma slot_item_artifact slot key v :
  artifact slot key = Some v → slot_item slot key = v.
Proof.
  unfold slot_item, artifact, py_get, dict_get.
  destruct slot as [d|]; [| done].
  destruct (d !! key) as [w|]; [| done].
  destruct (truthy w); [| done]. by intros [= ->].
Qed.

(** C5. [get_latest_code] returns the repair stage's [fixed_code] when it
    is present (the repair slot holds a result with a non-empty
    [fixed_code]), otherwise the implement stage's [code] when that is
    present, otherwise [None]: whenever the repair artifact is present it
    is the answer, whatever the implement slot holds. *)
Theorem get_latest_code_prefers_repair (s : WorkflowState) :
  get_latest_code s =
    match artifact (debugger_result s) "fixed_code" with
    | Some fixed_code => fixed_code
    | None =>
        match artifact (coder_result s) "code" with
        | Some code => code
        | None => PNone
        end
    end.
Proof.
  unfold get_latest_code. rewrite !slot_has_artifact.
  destruct (artifact (debugger_result s) "fixed_code") as [v|] eqn:Hd.
  { rewrite bool_decide_eq_true_2 by eauto. by apply slot_item_artifact. }
  rewrite bool_decide_eq_false_2 by (by intros [? ?]).
  destruct (artifact (coder_result s) "code") as [v|] eqn:Hc.
  { rewrite bool_decide_eq_true_2 by eauto. by apply slot_item_artifact. }
  by rewrite bool_decide_eq_false_2 by (by intros [? ?]).
Qed.

(** C6. [needs_debugging] holds exactly when a verify result is present,
    its [status] is ["failed"], and [can_continue_iteration] holds; and
    [can_continue_iteration] is [iteration_count < max_iterations]. *)
Theorem needs_debugging_iff (s : WorkflowState) :
  (needs_debugging s = true ↔
     (∃ d, tester_result s = Some d ∧ py_get d "status" = PStr "failed") ∧
     can_continue_iteration s = true) ∧
  (can_continue_iteration s = true ↔
     (iteration_count s < max_iterations s)%Z).
Proof.
  split; [apply needs_debugging_true | apply can_continue_iteration_spec].
Qed.

(** ** Bookkeeping of completed and failed stages *)

(** C8. [add_completed_task] and [add_failed_task] are idempotent, and in
    every run started by [execute] the lists [completed_tasks] and
    [failed_tasks] are free of duplicates before and after every node
    execution, however often a node is visited. *)
Theorem task_lists_are_sets :
  (∀ task s,
     add_completed_task task (add_completed_task task s)
     = add_completed_task task s) ∧
  (∀ task s,
     add_failed_task task (add_failed_task task s)
     = add_failed_task task s) ∧
  (∀ agents workflow_id user_request ceiling fuel,
     Forall (λ v,
        (NoDup (completed_tasks (v_before v)) ∧
         NoDup (failed_tasks (v_before v))) ∧
        (NoDup (completed_tasks (v_after v)) ∧
         NoDup (failed_tasks (v_after v))))
       (visits agents fuel
          (initial_state workflow_id user_request ceiling))).
Proof.
  split_and!; [apply add_completed_task_idem | apply add_failed_task_idem |].
  intros agents wid req mi fuel.
  eapply Forall_impl.
  - apply (visits_from_invariant agents
             (λ _ s, NoDup (completed_tasks s) ∧ NoDup (failed_tasks s))).
    + intros t n s n' [Hc Hf] _. split;
        [by apply exec_completed_tasks_NoDup | by apply exec_failed_tasks_NoDup].
    + split; apply NoDup_nil_2.
  - intros v [[Hc Hf] ->]. split; [done |]. split;
      [by apply exec_completed_tasks_NoDup | by apply exec_failed_tasks_NoDup].
Qed.

(** ** The iteration ceiling *)

(** C2, as stated, fails.  The ceiling is any integer: [WorkflowGraph]
    takes [max_iterations] as it is given.  With ceiling [-1] the counter, which starts at 0, is
    above the ceiling in the initial state and in every state of the run
    (planning, coding, testing, documenting). *)
Lemma negative_ceiling_is_exceeded :
  let s0 := initial_state "run-1" "add two numbers" (-1) in
  ¬ (0 ≤ iteration_count s0 ≤ max_iterations s0)%Z ∧
  length (visits agents_tests_pass 5 s0) = 4 ∧
  Forall (λ v,
     ¬ (0 ≤ iteration_count (v_after v) ≤ max_iterations (v_after v))%Z)
    (visits agents_tests_pass 5 s0).
Proof.
  intros s0. split_and!.
  - simpl. lia.
  - vm_compute. reflexivity.
  - apply (Forall_fmap
             (λ v, (iteration_count (v_after v), max_iterations (v_after v)))
             (λ p, ¬ (0 ≤ p.1 ≤ p.2)%Z)).
    assert ((λ v, (iteration_count (v_after v), max_iterations (v_after v)))
              <$> visits agents_tests_pass 5 s0
            = [(0, -1); (0, -1); (0, -1); (0, -1)]%Z) as ->
      by (vm_compute; reflexivity).
    repeat constructor; simpl; lia.
Qed.

(** C2, amended.  In every run from the initial state with a
    non-negative ceiling, [0 ≤ iteration_count ≤ max_iterations] holds in
    the initial state and in the state every node receives and leaves. *)
Theorem iteration_count_within_ceiling
    (agents : Agents) (workflow_id user_request : string)
    (ceiling : Z) (fuel : nat) :
  (0 ≤ ceiling)%Z →
  let s0 := initial_state workflow_id user_request ceiling in
  (0 ≤ iteration_count s0 ≤ max_iterations s0)%Z ∧
  Forall (λ v,
     (0 ≤ iteration_count (v_before v) ≤ max_iterations (v_before v))%Z ∧
     (0 ≤ iteration_count (v_after v) ≤ max_iterations (v_after v))%Z)
    (visits agents fuel s0).
Proof.
  intros Hmi s0.
  assert (within_ceiling entry_point s0) as H0.
  { split; [simpl; lia | done]. }
  split; [apply H0 |].
  eapply Forall_impl.
  - apply (visits_from_invariant agents within_ceiling); [| exact H0].
    intros t n s n'. apply within_ceiling_step.
  - intros v [Hc ->]. split; [apply Hc | by apply within_ceiling_exec].
Qed.

(** A run with ceiling 2 in which every test run fails. *)
Lemma iteration_count_within_ceiling_witness :
  (0 ≤ 2)%Z ∧
  let s0 := initial_state "run-1" "add two numbers" 2 in
  (0 ≤ iteration_count s0 ≤ max_iterations s0)%Z ∧
  Forall (λ v,
     (0 ≤ iteration_count (v_before v) ≤ max_iterations (v_before v))%Z ∧
     (0 ≤ iteration_count (v_after v) ≤ max_iterations (v_after v))%Z)
    (visits agents_tests_fail 7 s0).
Proof.
  split; [lia |].
  apply (iteration_count_within_ceiling
           agents_tests_fail "run-1" "add two numbers" 2 7).
  lia.
Defined.

(** ** Runs in which every call returns and every test run fails *)

Section TestsAlwaysFail.
Variable agents : Agents.
Hypothesis Hret : every_call_returns agents.
Hypothesis Hfail : every_test_fails agents.

Lemma testing_records_failure t s :
  test_outcome_is "failed" (exec_node agents testing t s).
Proof.
  destruct (Hret testing t s) as [d Hd]. exists d.
  rewrite exec_tester_result, Hd. eauto.
Qed.

Lemma debugging_counts t s :
  iteration_count (exec_node agents debugging t s)
  = (iteration_count s + 1)%Z.
Proof.
  destruct (Hret debugging t s) as [d Hd].
  by rewrite exec_iteration_count, Hd.
Qed.

Lemma debugging_keeps_outcome lit t s :
  test_outcome_is lit s →
  test_outcome_is lit (exec_node agents debugging t s).
Proof.
  unfold test_outcome_is. by rewrite exec_tester_result.
Qed.

Lemma can_continue_exec n t s :
  n ≠ debugging →
  can_continue_iteration (exec_node agents n t s) = can_continue_iteration s.
Proof.
  intros Hn. unfold can_continue_iteration.
  rewrite exec_iteration_count, exec_max_iterations. by destruct n.
Qed.

Lemma after_failed_test_repair t s :
  (iteration_count s < max_iterations s)%Z →
  next_node testing (exec_node agents testing t s) = Some debugging.
Proof.
  intros Hlt. simpl. rewrite route_after_testing_failed; [done | | |].
  - apply exec_status_not_FAILED.
  - rewrite can_continue_exec by done. by apply can_continue_iteration_spec.
  - apply testing_records_failure.
Qed.

Lemma after_repair_retest t s :
  test_outcome_is "failed" s →
  (iteration_count s + 1 < max_iterations s)%Z →
  next_node debugging (exec_node agents debugging t s) = Some testing.
Proof.
  intros Hf Hlt. simpl. rewrite route_after_debugging_failed; [done | | |].
  - apply exec_status_not_FAILED.
  - apply can_continue_iteration_spec.
    rewrite debugging_counts, exec_max_iterations. lia.
  - by apply debugging_keeps_outcome.
Qed.

Lemma after_last_repair_document t s :
  (max_iterations s ≤ iteration_count s + 1)%Z →
  next_node debugging (exec_node agents debugging t s) = Some documenting.
Proof.
  intros Hge. simpl. rewrite route_after_debugging_ceiling; [done | |].
  - apply exec_status_not_FAILED.
  - unfold can_continue_iteration.
    rewrite debugging_counts, exec_max_iterations. by apply Z.ltb_ge.
Qed.

Lemma documenting_completes t s :
  status (exec_node agents documenting t s) = COMPLETED.
Proof.
  destruct (Hret documenting t s) as [d Hd]. by rewrite exec_status, Hd.
Qed.

End TestsAlwaysFail.

(** C3. With a ceiling of 2, when every collaborator call returns and
    every test run reports ["failed"], the run visits planning, coding,
    testing, debugging (iteration 1), testing, debugging (iteration 2) and
    documenting, in this order, and ends with status [COMPLETED] and
    [iteration_count = 2]. *)
Theorem run_with_failing_tests_and_ceiling_2
    (agents : Agents) (workflow_id user_request : string) (k : nat) :
  every_call_returns agents →
  every_test_fails agents →
  let s0 := initial_state workflow_id user_request 2 in
  stage_sequence (visits agents (7 + k) s0)
  = [(planning, 0%Z); (coding, 0%Z); (testing, 0%Z); (debugging, 1%Z);
     (testing, 1%Z); (debugging, 2%Z); (documenting, 2%Z)] ∧
  ∃ s, ainvoke agents (7 + k) s0 = Some (Ok s) ∧
       status s = COMPLETED ∧ iteration_count s = 2%Z.
Proof.
  intros Hret Hfail s0.
  set (s1 := exec_node agents planning 0 s0).
  set (s2 := exec_node agents coding 1 s1).
  set (s3 := exec_node agents testing 2 s2).
  set (s4 := exec_node agents debugging 3 s3).
  set (s5 := exec_node agents testing 4 s4).
  set (s6 := exec_node agents debugging 5 s5).
  set (s7 := exec_node agents documenting 6 s6).
  assert (max_iterations s1 = 2%Z) as Hm1 by apply exec_max_iterations.
  assert (max_iterations s2 = 2%Z) as Hm2
    by (unfold s2; by rewrite exec_max_iterations).
  assert (max_iterations s3 = 2%Z) as Hm3
    by (unfold s3; by rewrite exec_max_iterations).
  assert (max_iterations s4 = 2%Z) as Hm4
    by (unfold s4; by rewrite exec_max_iterations).
  assert (max_iterations s5 = 2%Z) as Hm5
    by (unfold s5; by rewrite exec_max_iterations).
  assert (iteration_count s1 = 0%Z) as Hi1 by apply exec_iteration_count.
  assert (iteration_count s2 = 0%Z) as Hi2
    by (unfold s2; by rewrite exec_iteration_count).
  assert (iteration_count s3 = 0%Z) as Hi3
    by (unfold s3; by rewrite exec_iteration_count).
  assert (iteration_count s4 = 1%Z) as Hi4
    by (unfold s4; rewrite debugging_counts by done; by rewrite Hi3).
  assert (iteration_count s5 = 1%Z) as Hi5
    by (unfold s5; by rewrite exec_iteration_count).
  assert (iteration_count s6 = 2%Z) as Hi6
    by (unfold s6; rewrite debugging_counts by done; by rewrite Hi5).
  assert (iteration_count s7 = 2%Z) as Hi7
    by (unfold s7; by rewrite exec_iteration_count).
  assert (next_node testing s3 = Some debugging) as Hn3
    by (apply after_failed_test_repair; [done.. | lia]).
  assert (next_node debugging s4 = Some testing) as Hn4.
  { apply after_repair_retest; [done | | lia].
    by apply testing_records_failure. }
  assert (next_node testing s5 = Some debugging) as Hn5
    by (apply after_failed_test_repair; [done.. | lia]).
  assert (next_node debugging s6 = Some documenting) as Hn6
    by (apply after_last_repair_document; [done | lia]).
  assert (visits agents (7 + k) s0 =
    [ {| v_time := 0; v_node := planning; v_before := s0; v_after := s1 |};
      {| v_time := 1; v_node := coding; v_before := s1; v_after := s2 |};
      {| v_time := 2; v_node := testing; v_before := s2; v_after := s3 |};
      {| v_time := 3; v_node := debugging; v_before := s3; v_after := s4 |};
      {| v_time := 4; v_node := testing; v_before := s4; v_after := s5 |};
      {| v_time := 5; v_node := debugging; v_before := s5; v_after := s6 |};
      {| v_time := 6; v_node := documenting; v_before := s6;
         v_after := s7 |} ]) as Hvisits.
  { unfold visits, entry_point.
    change (7 + k) with (S (S (S (S (S (S (S k))))))).
    rewrite visits_from_S. fold s1. cbn [next_node]. f_equal.
    rewrite visits_from_S. fold s2. cbn [next_node]. f_equal.
    rewrite visits_from_S. fold s3. rewrite Hn3. f_equal.
    rewrite visits_from_S. fold s4. rewrite Hn4. f_equal.
    rewrite visits_from_S. fold s5. rewrite Hn5. f_equal.
    rewrite visits_from_S. fold s6. rewrite Hn6. f_equal.
    rewrite visits_from_S. fold s7. done. }
  split.
  - rewrite Hvisits. unfold stage_sequence. cbn [fmap list_fmap v_node v_after].
    by rewrite Hi1, Hi2, Hi3, Hi4, Hi5, Hi6, Hi7.
  - exists s7. split_and!; [| by apply documenting_completes | done].
    apply (visits_from_END agents (7 + k) 0 entry_point s0
             {| v_time := 6; v_node := documenting; v_before := s6;
                v_after := s7 |}); [| done].
    fold (visits agents (7 + k) s0). rewrite Hvisits. set_solver.
Qed.

(** The collaborators [agents_tests_fail] meet both assumptions. *)
Lemma run_with_failing_tests_and_ceiling_2_witness :
  every_call_returns agents_tests_fail ∧
  every_test_fails agents_tests_fail ∧
  stage_sequence
    (visits agents_tests_fail 7 (initial_state "run-1" "add two numbers" 2))
  = [(planning, 0%Z); (coding, 0%Z); (testing, 0%Z); (debugging, 1%Z);
     (testing, 1%Z); (debugging, 2%Z); (documenting, 2%Z)].
Proof.
  assert (every_call_returns agents_tests_fail) as Hret.
  { intros n t s. destruct n; simpl; eauto. }
  assert (every_test_fails agents_tests_fail) as Hfail.
  { intros t s d [= <-]. reflexivity. }
  split_and!; [exact Hret | exact Hfail |].
  apply (run_with_failing_tests_and_ceiling_2
           agents_tests_fail "run-1" "add two numbers" 0 Hret Hfail).
Defined.

(** ** Runs whose first test run passes *)

(** C7. When the first call of the tester returns a result whose [status]
    is ["passed"], the run is planning, coding, testing, documenting: the
    debugging node is never visited and [iteration_count] is 0 after every
    node and in the state the run ends with. *)
Theorem first_test_passes_no_repair
    (agents : Agents) (workflow_id user_request : string) (ceiling : Z)
    (d : dict) :
  let s0 := initial_state workflow_id user_request ceiling in
  let s2 := exec_node agents coding 1 (exec_node agents planning 0 s0) in
  agent_call agents testing 2 s2 = Ok d →
  py_get d "status" = PStr "passed" →
  (∀ fuel,
     Forall (λ v, v_node v ≠ debugging ∧ iteration_count (v_after v) = 0%Z)
            (visits agents fuel s0)) ∧
  (∀ k, v_node <$> visits agents (4 + k) s0
        = [planning; coding; testing; documenting]) ∧
  (∀ k, ∃ s, ainvoke agents (4 + k) s0 = Some (Ok s) ∧
             iteration_count s = 0%Z).
Proof.
  intros s0 s2 Hcall Hpass.
  set (s1 := exec_node agents planning 0 s0) in *.
  set (s3 := exec_node agents testing 2 s2).
  set (s4 := exec_node agents documenting 3 s3).
  assert (iteration_count s1 = 0%Z) as Hi1 by apply exec_iteration_count.
  assert (iteration_count s2 = 0%Z) as Hi2
    by (unfold s2; by rewrite exec_iteration_count).
  assert (iteration_count s3 = 0%Z) as Hi3
    by (unfold s3; by rewrite exec_iteration_count).
  assert (iteration_count s4 = 0%Z) as Hi4
    by (unfold s4; by rewrite exec_iteration_count).
  assert (next_node testing s3 = Some documenting) as Hn3.
  { simpl. rewrite route_after_testing_passed; [done | |].
    - apply exec_status_not_FAILED.
    - exists d. unfold s3. by rewrite exec_tester_result, Hcall. }
  assert (∀ k, visits agents (4 + k) s0 =
    [ {| v_time := 0; v_node := planning; v_before := s0; v_after := s1 |};
      {| v_time := 1; v_node := coding; v_before := s1; v_after := s2 |};
      {| v_time := 2; v_node := testing; v_before := s2; v_after := s3 |};
      {| v_time := 3; v_node := documenting; v_before := s3;
         v_after := s4 |} ]) as Hvisits.
  { intros k. unfold visits, entry_point.
    change (4 + k) with (S (S (S (S k)))).
    rewrite visits_from_S. fold s1. cbn [next_node]. f_equal.
    rewrite visits_from_S. fold s2. cbn [next_node]. f_equal.
    rewrite visits_from_S. fold s3. rewrite Hn3. f_equal.
    rewrite visits_from_S. fold s4. done. }
  assert (Forall (λ v, v_node v ≠ debugging ∧
                       iteration_count (v_after v) = 0%Z)
                 (visits agents 4 s0)) as Hall.
  { change (visits agents 4 s0) with (visits agents (4 + 0) s0).
    rewrite Hvisits. by repeat constructor. }
  split_and!.
  - intros fuel. destruct (decide (fuel ≤ 4)) as [Hle | Hgt].
    + unfold visits.
      replace 4 with (fuel + (4 - fuel)) in Hall by lia.
      rewrite (visits_from_take agents fuel (4 - fuel)).
      by apply Forall_take.
    + replace fuel with (4 + (fuel - 4)) by lia.
      rewrite Hvisits, <- (Hvisits 0). exact Hall.
  - intros k. by rewrite Hvisits.
  - intros k. exists s4. split; [| done].
    apply (visits_from_END agents (4 + k) 0 entry_point s0
             {| v_time := 3; v_node := documenting; v_before := s3;
                v_after := s4 |}); [| done].
    fold (visits agents (4 + k) s0). rewrite Hvisits. set_solver.
Qed.

(** A run with [agents_tests_pass]. *)
Lemma first_test_passes_no_repair_witness :
  py_get tests_passed "status" = PStr "passed" ∧
  ∀ fuel,
    Forall (λ v, v_node v ≠ debugging ∧ iteration_count (v_after v) = 0%Z)
           (visits agents_tests_pass fuel
              (initial_state "run-2" "add two numbers" 3)).
Proof.
  split; [reflexivity |].
  apply (first_test_passes_no_repair
           agents_tests_pass "run-2" "add two numbers" 3 tests_passed);
    reflexivity.
Defined.

(** ** Routing after the verify stage *)

(** C4.  The code departs from the claim: a run in which the coder and
    then the tester raise reaches, after the testing node, a state whose
    status is not [FAILED], in which the ceiling is not reached and no
    failure is recorded, and from which [_route_after_testing] returns
    ["end"], not ["documenting"]; the run stops there, undocumented.  On
    the same state the routing table [get_next_node] of the nodes answers
    ["documenting"], as the comments of both functions say. *)
Lemma route_after_testing_may_end :
  let s0 := initial_state "run-3" "add two numbers" 3 in
  let s3 :=
    exec_node agents_tester_raises testing 2
      (exec_node agents_tester_raises coding 1
         (exec_node agents_tester_raises planning 0 s0)) in
  (v_node <$> visits agents_tester_raises 7 s0) = [planning; coding; testing] ∧
  (v_after <$> visits agents_tester_raises 7 s0 !! 2) = Some s3 ∧
  status s3 ≠ FAILED ∧
  can_continue_iteration s3 = true ∧
  needs_debugging s3 = false ∧
  tester_result s3 = None ∧
  _route_after_testing s3 = to_end ∧
  _route_after_testing s3 ≠ to_documenting ∧
  get_next_node s3 = Some documenting.
Proof. vm_compute. by split_and!. Qed.

(** What the routing does after the verify stage when the status is not
    [FAILED] and the ceiling is not reached: a verify result that records
    ["passed"] routes to documenting; when the verify result is absent or
    records neither ["failed"] nor ["passed"], the routing returns
    ["end"]. *)
Theorem route_after_testing_without_failure (s : WorkflowState) :
  status s ≠ FAILED →
  can_continue_iteration s = true →
  (test_outcome_is "passed" s → _route_after_testing s = to_documenting) ∧
  (¬ test_outcome_is "failed" s → ¬ test_outcome_is "passed" s →
   _route_after_testing s = to_end).
Proof.
  intros Hst Hc. split.
  - by apply route_after_testing_passed.
  - by apply route_after_testing_other.
Qed.

(** The state left by a testing node whose tests passed. *)
Lemma route_after_testing_without_failure_witness :
  let s :=
    set_tester_result (Some tests_passed)
      (update_status TESTING (initial_state "run-2" "add two numbers" 3)) in
  status s ≠ FAILED ∧ can_continue_iteration s = true ∧
  test_outcome_is "passed" s ∧ _route_after_testing s = to_documenting.
Proof.
  intros s.
  assert (status s ≠ FAILED) as Hst by done.
  assert (can_continue_iteration s = true) as Hc by reflexivity.
  assert (test_outcome_is "passed" s) as Hp.
  { exists tests_passed. split; reflexivity. }
  split_and!; [exact Hst | exact Hc | exact Hp |].
  exact (proj1 (route_after_testing_without_failure s Hst Hc) Hp).
Defined.

(** ** The run driver *)

(** [execute] by the outcome of the graph call: the result of the run
    when the call returns a final state that passes the validation, the
    result of the [except] branch otherwise. *)
Lemma execute_unfold graph_ainvoke ceiling uuid4 user_request
    given_workflow_id :
  execute graph_ainvoke ceiling uuid4 user_request given_workflow_id =
  match
    graph_ainvoke
      (initial_state (run_id_of uuid4 given_workflow_id) user_request ceiling)
  with
  | None => None
  | Some (Ok s) =>
      Some (Ok (if is_optional_str (final_code s) &&
                   is_optional_str (final_documentation s)
                then run_result s
                else failure_result (run_id_of uuid4 given_workflow_id)
                       ValidationError))
  | Some (Raise e) =>
      Some (Ok (failure_result (run_id_of uuid4 given_workflow_id) e))
  end.
Proof.
  unfold execute, WorkflowState_validate.
  destruct (graph_ainvoke _) as [[s|e]|]; try done.
  by destruct (_ && _).
Qed.

(** Whatever the graph does, [execute] hands a result back when the graph
    call comes back at all. *)
Lemma execute_never_raises graph_ainvoke ceiling uuid4 user_request
    given_workflow_id e :
  execute graph_ainvoke ceiling uuid4 user_request given_workflow_id
  ≠ Some (Raise e).
Proof.
  rewrite execute_unfold. destruct (graph_ainvoke _) as [[?|?]|]; try done.
Qed.

(** C9. When the graph execution raises, [execute] returns a result with
    [success = False], [status = "failed"] and the message of the fault
    as the one entry of [error_history]; no exception reaches the
    caller. *)
Theorem execute_catches_graph_fault
    (graph_ainvoke : WorkflowState → option (result WorkflowState))
    (ceiling : Z) (uuid4 user_request : string)
    (given_workflow_id : option string) (e : string) :
  graph_ainvoke
    (initial_state (run_id_of uuid4 given_workflow_id) user_request ceiling)
  = Some (Raise e) →
  ∃ r, execute graph_ainvoke ceiling uuid4 user_request given_workflow_id
       = Some (Ok r) ∧
       res_success r = false ∧
       res_status r = "failed" ∧
       res_error_history r = ["工作流执行异常: " +:+ e] ∧
       res_final_code r = PNone ∧
       res_final_documentation r = PNone.
Proof.
  intros Hfault. rewrite execute_unfold, Hfault. eexists. by split_and!.
Qed.

(** A graph call that stops on the recursion limit of the graph library. *)
Lemma execute_catches_graph_fault_witness :
  ∃ r, execute (λ _, Some (Raise "Recursion limit of 25 reached"))
         3 "0f8fad5b" "add two numbers" None
       = Some (Ok r) ∧
       res_success r = false ∧
       res_status r = "failed" ∧
       res_error_history r
       = ["工作流执行异常: " +:+ "Recursion limit of 25 reached"] ∧
       res_final_code r = PNone ∧
       res_final_documentation r = PNone.
Proof.
  apply (execute_catches_graph_fault
           (λ _, Some (Raise "Recursion limit of 25 reached"))
           3 "0f8fad5b" "add two numbers" None
           "Recursion limit of 25 reached").
  reflexivity.
Defined.

(** ** A failing documenter *)

Section Documenting.
Variable agents : Agents.

Lemma outputs_unset_step t n s n' :
  outputs_unset s → next_node n (exec_node agents n t s) = Some n' →
  outputs_unset (exec_node agents n t s).
Proof.
  intros [Hc Hd] Hnext. unfold outputs_unset.
  rewrite exec_final_code, exec_final_documentation.
  by destruct n.
Qed.

Lemma visits_outputs_unset fuel workflow_id user_request ceiling v :
  v ∈ visits agents fuel (initial_state workflow_id user_request ceiling) →
  outputs_unset (v_before v) ∧ visit_ok agents v.
Proof.
  intros Hv.
  pose proof (visits_from_invariant agents (λ _, outputs_unset)
                outputs_unset_step fuel 0 entry_point
                (initial_state workflow_id user_request ceiling)) as Hall.
  rewrite Forall_forall in Hall. apply Hall; [by split | done].
Qed.

End Documenting.

(** C10. In a run started by [execute], [COMPLETED] is only ever written
    by a documenting node whose collaborator returned.  When the
    documenter raises, the status stays [DOCUMENTING], the run ends there,
    and the result has [success = False], [status = "documenting"] and
    [final_code] and [final_documentation] unset. *)
Theorem documenter_failure_ends_in_documenting
    (agents : Agents) (ceiling : Z) (uuid4 user_request : string)
    (given_workflow_id : option string) (fuel : nat) (v : visit) :
  let s0 :=
    initial_state (run_id_of uuid4 given_workflow_id) user_request ceiling in
  v ∈ visits agents fuel s0 →
  (status (v_after v) = COMPLETED →
     v_node v = documenting ∧
     ∃ d, agent_call agents documenting (v_time v) (v_before v) = Ok d) ∧
  (v_node v = documenting →
   ∀ e, agent_call agents documenting (v_time v) (v_before v) = Raise e →
     status (v_after v) = DOCUMENTING ∧
     ainvoke agents fuel s0 = Some (Ok (v_after v)) ∧
     ∃ r, execute (ainvoke agents fuel) ceiling uuid4 user_request
            given_workflow_id = Some (Ok r) ∧
          res_success r = false ∧
          res_status r = "documenting" ∧
          res_final_code r = PNone ∧
          res_final_documentation r = PNone).
Proof.
  intros s0 Hv.
  destruct (visits_outputs_unset agents _ _ _ _ _ Hv) as [[Hc Hd] Hok].
  split.
  - rewrite Hok, exec_status. intros Hst.
    destruct (v_node v); try done.
    destruct (agent_call _ _ _ _) as [d|]; [eauto | done].
  - intros Hn e He.
    assert (status (v_after v) = DOCUMENTING) as Hst
      by (by rewrite Hok, exec_status, Hn, He).
    assert (final_code (v_after v) = PNone) as Hfc
      by (by rewrite Hok, exec_final_code, Hn, He).
    assert (final_documentation (v_after v) = PNone) as Hfd
      by (by rewrite Hok, exec_final_documentation, Hn, He).
    assert (ainvoke agents fuel s0 = Some (Ok (v_after v))) as Hrun.
    { apply visits_from_END; [done |]. by rewrite Hn. }
    split_and!; [done.. |].
    rewrite execute_unfold. fold s0. rewrite Hrun, Hfc, Hfd.
    eexists. split; [done |].
    cbn [andb is_optional_str run_result res_success res_status
         res_final_code res_final_documentation].
    by rewrite Hst, Hfc, Hfd.
Qed.

(** A run with [agents_documenter_raises]: the fourth visit is the failing
    documenting node. *)
Lemma documenter_failure_ends_in_documenting_witness :
  let s0 := initial_state "run-4" "add two numbers" 3 in
  let s3 :=
    exec_node agents_documenter_raises testing 2
      (exec_node agents_documenter_raises coding 1
         (exec_node agents_documenter_raises planning 0 s0)) in
  let v :=
    {| v_time := 3; v_node := documenting; v_before := s3;
       v_after := exec_node agents_documenter_raises documenting 3 s3 |} in
  v ∈ visits agents_documenter_raises 5 s0 ∧
  status (v_after v) = DOCUMENTING ∧
  ainvoke agents_documenter_raises 5 s0 = Some (Ok (v_after v)).
Proof.
  intros s0 s3 v.
  assert (v ∈ visits agents_documenter_raises 5 s0) as Hv.
  { apply list_elem_of_lookup. exists 3. vm_compute. reflexivity. }
  split; [exact Hv |].
  destruct (proj2 (documenter_failure_ends_in_documenting
                     agents_documenter_raises 3 "unused" "add two numbers"
                     (Some "run-4") 5 v Hv)
              eq_refl "model unavailable" eq_refl)
    as (Hst & Hrun & _).
  split; [exact Hst | exact Hrun].
Defined.

(** ** A failing debugger *)

Section RepairAlwaysRaises.
Variable agents : Agents.
Hypothesis Htest :
  ∀ t s, ∃ d, agent_call agents testing t s = Ok d ∧
              py_get d "status" = PStr "failed".
Hypothesis Hdebug : ∀ t s, ∃ e, agent_call agents debugging t s = Raise e.

Lemma failed_repair_not_counted t s :
  iteration_count (exec_node agents debugging t s) = iteration_count s.
Proof.
  destruct (Hdebug t s) as [e He]. by rewrite exec_iteration_count, He.
Qed.

Lemma failed_repair_retests t s :
  (iteration_count s < max_iterations s)%Z → test_outcome_is "failed" s →
  next_node debugging (exec_node agents debugging t s) = Some testing.
Proof.
  intros Hlt Hf. simpl. rewrite route_after_debugging_failed; [done | | |].
  - apply exec_status_not_FAILED.
  - apply can_continue_iteration_spec.
    by rewrite failed_repair_not_counted, exec_max_iterations.
  - unfold test_outcome_is. by rewrite exec_tester_result.
Qed.

Lemma failed_test_repairs t s :
  (iteration_count s < max_iterations s)%Z →
  next_node testing (exec_node agents testing t s) = Some debugging ∧
  test_outcome_is "failed" (exec_node agents testing t s).
Proof.
  intros Hlt. destruct (Htest t s) as (d & Hd & Hst).
  assert (test_outcome_is "failed" (exec_node agents testing t s)) as Hf.
  { exists d. by rewrite exec_tester_result, Hd. }
  split; [| done]. simpl.
  rewrite route_after_testing_failed; [done | | | done].
  - apply exec_status_not_FAILED.
  - apply can_continue_iteration_spec.
    by rewrite exec_iteration_count, exec_max_iterations.
Qed.

(** Below the ceiling, the verify-repair cycle never reaches [END]. *)
Lemma cycle_never_ends fuel t s :
  (iteration_count s < max_iterations s)%Z →
  ainvoke_from agents fuel t testing s = None ∧
  (test_outcome_is "failed" s →
   ainvoke_from agents fuel t debugging s = None).
Proof.
  revert t s. induction fuel as [|fuel IH]; intros t s Hlt; [done |].
  rewrite !ainvoke_from_S. split.
  - destruct (failed_test_repairs t s Hlt) as [-> Hf].
    apply IH; [| done].
    by rewrite exec_iteration_count, exec_max_iterations.
  - intros Hf. rewrite failed_repair_retests by done.
    apply IH. by rewrite failed_repair_not_counted, exec_max_iterations.
Qed.

Lemma run_never_ends fuel workflow_id user_request ceiling :
  (0 < ceiling)%Z →
  ainvoke agents fuel (initial_state workflow_id user_request ceiling)
  = None.
Proof.
  intros Hpos. unfold ainvoke, entry_point.
  destruct fuel as [|[|fuel]]; [done | by rewrite ainvoke_from_S |].
  rewrite ainvoke_from_S. cbn [next_node].
  rewrite ainvoke_from_S. cbn [next_node].
  apply cycle_never_ends.
  by rewrite !exec_iteration_count, !exec_max_iterations.
Qed.

End RepairAlwaysRaises.

(** C1 does not hold of the code.  With a ceiling of 1, failing tests and
    a debugger that raises on every call: a repair visit leaves
    [iteration_count] as it was, the run has visited the debugging node
    three times after nine node executions with the counter still at 0,
    and the graph reaches [END] for no amount of fuel. *)
Theorem failed_repair_does_not_count :
  let s0 := initial_state "run-5" "add two numbers" 1 in
  (∀ t s,
     iteration_count (exec_node agents_debugger_raises debugging t s)
     = iteration_count s) ∧
  stage_sequence (visits agents_debugger_raises 9 s0)
  = [(planning, 0%Z); (coding, 0%Z); (testing, 0%Z); (debugging, 0%Z);
     (testing, 0%Z); (debugging, 0%Z); (testing, 0%Z); (debugging, 0%Z);
     (testing, 0%Z)] ∧
  (∀ fuel, ainvoke agents_debugger_raises fuel s0 = None).
Proof.
  assert (∀ t s, ∃ d, agent_call agents_debugger_raises testing t s = Ok d ∧
                      py_get d "status" = PStr "failed") as Htest.
  { intros t s. exists tests_failed. split; reflexivity. }
  assert (∀ t s, ∃ e, agent_call agents_debugger_raises debugging t s
                      = Raise e) as Hdebug.
  { intros t s. by eexists. }
  split_and!.
  - by apply failed_repair_not_counted.
  - vm_compute. reflexivity.
  - intros fuel. by apply run_never_ends.
Qed.

(** * Further properties of the workflow *)

(** ** Runs as lists of visits *)

Lemma last_state_cons s v vs :
  last_state s (v :: vs) = last_state (v_after v) vs.
Proof. unfold last_state. rewrite last_cons. by destruct (last vs). Qed.

Section Runs.
Variable agents : Agents.

(** A run that reaches [END] hands back the state of its last visit, and
    no edge leaves that visit. *)
Lemma ainvoke_from_last fuel t n s r :
  ainvoke_from agents fuel t n s = Some r →
  ∃ v, last (visits_from agents fuel t n s) = Some v ∧
       r = Ok (v_after v) ∧
       next_node (v_node v) (v_after v) = None.
Proof.
  revert t n s. induction fuel as [|fuel IH]; intros t n s; [done |].
  rewrite ainvoke_from_S, visits_from_S.
  destruct (next_node n _) as [n'|] eqn:Hnext.
  - intros (v & Hv & Hr)%IH. exists v. split; [| done].
    destruct (visits_from agents fuel (S t) n' _); [done |]. exact Hv.
  - intros [= <-]. eexists. split; [done |]. by split.
Qed.

Lemma ainvoke_from_last_state fuel t n s r :
  ainvoke_from agents fuel t n s = Some r →
  r = Ok (last_state s (visits_from agents fuel t n s)).
Proof.
  intros (v & Hv & -> & _)%ainvoke_from_last. unfold last_state.
  by rewrite Hv.
Qed.

Lemma visits_from_visit_ok fuel t n s :
  Forall (visit_ok agents) (visits_from agents fuel t n s).
Proof.
  eapply Forall_impl.
  - by apply (visits_from_invariant agents (λ _ _, True)).
  - by intros v [_ Hv].
Qed.

(** The error history of a run is the messages of its visits, in order. *)
Lemma visits_from_error_history fuel t n s :
  error_history (last_state s (visits_from agents fuel t n s))
  = error_history s ++ (visits_from agents fuel t n s ≫= visit_errors agents).
Proof.
  revert t n s. induction fuel as [|fuel IH]; intros t n s.
  { simpl. by rewrite app_nil_r. }
  rewrite visits_from_S, last_state_cons. cbn [mbind list_bind v_after].
  unfold visit_errors at 1. cbn [v_node v_time v_before].
  destruct (next_node n _) as [n'|].
  - rewrite IH, exec_error_history. by rewrite <- (assoc_L (++)).
  - cbn [last_state last mbind list_bind].
    rewrite exec_error_history. by rewrite app_nil_r.
Qed.

(** The counter of a run is the number of its repairs that returned. *)
Lemma visits_from_iteration_count fuel t n s :
  iteration_count (last_state s (visits_from agents fuel t n s))
  = (iteration_count s
     + Z.of_nat (length (filter (λ v, successful_repair agents v = true)
                                (visits_from agents fuel t n s))))%Z.
Proof.
  revert t n s. induction fuel as [|fuel IH]; intros t n s.
  { cbn [visits_from]. rewrite filter_nil. cbn [last_state last length]. lia. }
  rewrite visits_from_S, last_state_cons. cbn [v_after].
  rewrite filter_cons. unfold successful_repair at 1.
  cbn [v_node v_time v_before].
  assert (iteration_count
            (last_state (exec_node agents n t s)
               match next_node n (exec_node agents n t s) with
               | Some n' =>
                   visits_from agents fuel (S t) n' (exec_node agents n t s)
               | None => []
               end)
          = (iteration_count (exec_node agents n t s)
             + Z.of_nat (length (filter
                 (λ v, successful_repair agents v = true)
                 match next_node n (exec_node agents n t s) with
                 | Some n' =>
                     visits_from agents fuel (S t) n'
                       (exec_node agents n t s)
                 | None => []
                 end)))%Z) as ->.
  { destruct (next_node n _); [apply IH |].
    rewrite filter_nil. cbn [last_state last length]. lia. }
  rewrite exec_iteration_count.
  destruct n; try (case_decide; [done | lia]).
  case_decide as Hr; revert Hr;
    destruct (agent_call agents debugging t s); intros Hr;
    try done; cbn [length]; lia.
Qed.

End Runs.

(** ** What [execute] reports of a run *)

Section Reports.
Variable agents : Agents.

(** When the graph is the engine, [execute] reports the last state of the
    run. *)
Lemma execute_run ceiling uuid4 user_request given_workflow_id fuel r :
  let s0 :=
    initial_state (run_id_of uuid4 given_workflow_id) user_request ceiling in
  execute (ainvoke agents fuel) ceiling uuid4 user_request given_workflow_id
  = Some (Ok r) →
  res_success r = true →
  r = run_result (last_state s0 (visits agents fuel s0)) ∧
  ainvoke agents fuel s0 = Some (Ok (last_state s0 (visits agents fuel s0))).
Proof.
  intros s0. rewrite execute_unfold. fold s0.
  destruct (ainvoke agents fuel s0) as [[s|e]|] eqn:Hrun; [| | done].
  - apply ainvoke_from_last_state in Hrun as Hs. injection Hs as ->.
    destruct (_ && _); intros [= <-]; done.
  - by apply ainvoke_from_no_fault in Hrun.
Qed.

(** The library's limit only turns an unfinished run into a fault. *)
Lemma ainvoke_limited_Ok recursion_limit s0 s :
  ainvoke_limited agents recursion_limit s0 = Some (Ok s) ↔
  ainvoke agents recursion_limit s0 = Some (Ok s).
Proof.
  unfold ainvoke_limited.
  destruct (ainvoke agents recursion_limit s0) as [r|]; [done |].
  split; intros [=].
Qed.

Lemma ainvoke_limited_Raise recursion_limit s0 e :
  ainvoke_limited agents recursion_limit s0 = Some (Raise e) ↔
  ainvoke agents recursion_limit s0 = None ∧ e = GraphRecursionError.
Proof.
  unfold ainvoke_limited.
  destruct (ainvoke agents recursion_limit s0) as [[s|e']|] eqn:Hrun.
  - split; [done | by intros [? _]].
  - by apply ainvoke_from_no_fault in Hrun.
  - split; [by intros [= <-] | by intros [_ ->]].
Qed.

Lemma ainvoke_limited_returns recursion_limit s0 :
  ∃ r, ainvoke_limited agents recursion_limit s0 = Some r.
Proof. unfold ainvoke_limited. destruct (ainvoke _ _ _); eauto. Qed.

End Reports.

(** The errors in the result built from the last state of a run. *)
Lemma run_result_errors (agents : Agents) (workflow_id user_request : string)
    (ceiling : Z) (fuel : nat) :
  let s0 := initial_state workflow_id user_request ceiling in
  let r := run_result (last_state s0 (visits agents fuel s0)) in
  res_error_history r = visits agents fuel s0 ≫= visit_errors agents ∧
  res_summary r !! "last_error" = Some (opt_str (last (res_error_history r))).
Proof.
  intros s0 r. unfold r.
  cbn [run_result res_error_history res_summary].
  pose proof (visits_from_error_history agents fuel 0 entry_point s0) as Hh.
  fold (visits agents fuel s0) in Hh. split; [exact Hh |].
  unfold get_summary.
  repeat first [ rewrite lookup_insert_eq | rewrite lookup_insert_ne by done ].
  do 2 f_equal.
  assert (∀ vs, Forall (λ v, (last_error (v_before v)
                              = last (error_history (v_before v)))
                             ∧ visit_ok agents v) vs →
                last_error s0 = last (error_history s0) →
                last_error (last_state s0 vs)
                = last (error_history (last_state s0 vs))) as Hlast.
  { intros vs Hall H0. unfold last_state.
    destruct (last vs) as [v|] eqn:Hv; [| done].
    apply last_Some_elem_of in Hv.
    rewrite Forall_forall in Hall. destruct (Hall v Hv) as [Hb ->].
    rewrite exec_last_error, exec_error_history.
    destruct (agent_call _ _ _ _); [by rewrite app_nil_r | by rewrite last_snoc]. }
  apply Hlast; [| done].
  apply (visits_from_invariant agents
           (λ _ s, last_error s = last (error_history s))); [| done].
  intros t n s n' Hs _. rewrite exec_last_error, exec_error_history.
  destruct (agent_call _ _ _ _); [by rewrite app_nil_r | by rewrite last_snoc].
Qed.

(** X1. [execute] always returns a result.  When no exception was caught
    (no ["error"] entry: the run reached [END] within the recursion limit
    and its final state passed the validation), the [error_history] it
    reports is exactly the messages of the stage calls that raised, in the
    order of the visits, each headed by the label of its stage, and
    [last_error] is the last of them.  When an exception was caught, the
    errors of the stages are not reported: [error_history] holds the one
    message of that exception and the summary is empty. *)
Theorem reported_errors_are_the_failed_calls
    (agents : Agents) (ceiling : Z) (uuid4 user_request : string)
    (given_workflow_id : option string) (recursion_limit : nat) :
  let s0 :=
    initial_state (run_id_of uuid4 given_workflow_id) user_request ceiling in
  ∃ r, execute (ainvoke_limited agents recursion_limit) ceiling uuid4
         user_request given_workflow_id = Some (Ok r) ∧
    match res_error r with
    | None =>
        res_error_history r
        = visits agents recursion_limit s0 ≫= visit_errors agents ∧
        res_summary r !! "last_error"
        = Some (opt_str (last (res_error_history r)))
    | Some error_msg =>
        res_error_history r = [error_msg] ∧ res_summary r = ∅
    end.
Proof.
  intros s0. rewrite execute_unfold. fold s0.
  destruct (ainvoke_limited agents recursion_limit s0) as [[s|e]|] eqn:Hcall.
  - apply ainvoke_limited_Ok in Hcall.
    apply ainvoke_from_last_state in Hcall as Hs. injection Hs as ->.
    eexists. split; [done |].
    destruct (_ && _); [| done].
    apply run_result_errors.
  - by eexists.
  - destruct (ainvoke_limited_returns agents recursion_limit s0) as [r Hr].
    congruence.
Qed.

(** ** The counter and the repairs *)

(** X2. In every run with a non-negative ceiling, [iteration_count] is
    the number of visits to the debugging node whose collaborator
    returned, so that at most [max_iterations] repairs ever return. *)
Theorem counter_counts_returned_repairs
    (agents : Agents) (workflow_id user_request : string)
    (ceiling : Z) (fuel : nat) :
  (0 ≤ ceiling)%Z →
  let s0 := initial_state workflow_id user_request ceiling in
  let repairs :=
    filter (λ v, successful_repair agents v = true) (visits agents fuel s0) in
  iteration_count (last_state s0 (visits agents fuel s0))
  = Z.of_nat (length repairs) ∧
  (Z.of_nat (length repairs) ≤ ceiling)%Z.
Proof.
  intros Hc s0 repairs.
  pose proof (visits_from_iteration_count agents fuel 0 entry_point s0) as Hn.
  fold (visits agents fuel s0) in Hn. fold repairs in Hn.
  change (iteration_count s0) with 0%Z in Hn. rewrite Z.add_0_l in Hn.
  split; [exact Hn |]. rewrite <- Hn.
  assert (within_ceiling entry_point s0) as H0.
  { split; [simpl; lia | done]. }
  pose proof (visits_from_invariant agents within_ceiling
                (λ t n s n', within_ceiling_step agents t n s n')
                fuel 0 entry_point s0 H0) as Hall.
  fold (visits agents fuel s0) in Hall. unfold last_state.
  destruct (last (visits agents fuel s0)) as [v|] eqn:Hv; [| simpl; lia].
  apply last_Some_elem_of in Hv. rewrite Forall_forall in Hall.
  destruct (Hall v Hv) as [Hw ->].
  pose proof (within_ceiling_exec agents _ (v_time v) _ Hw) as Hb.
  rewrite exec_max_iterations in Hb.
  assert (max_iterations (v_before v) = ceiling) as Hm; [| lia].
  clear Hb Hw Hn.
  pose proof (visits_from_invariant agents
                (λ _ s, max_iterations s = ceiling)) as Hmi.
  specialize (Hmi (λ t n s n' Hs _,
                eq_trans (exec_max_iterations agents n t s) Hs)
                fuel 0 entry_point s0 eq_refl).
  rewrite Forall_forall in Hmi. by destruct (Hmi v Hv).
Qed.

(** A run with ceiling 2 in which every test run fails: two repairs. *)
Lemma counter_counts_returned_repairs_witness :
  (0 ≤ 2)%Z ∧
  iteration_count
    (last_state (initial_state "run-1" "add two numbers" 2)
       (visits agents_tests_fail 9
          (initial_state "run-1" "add two numbers" 2)))
  = Z.of_nat
      (length
         (filter (λ v, successful_repair agents_tests_fail v = true)
            (visits agents_tests_fail 9
               (initial_state "run-1" "add two numbers" 2)))).
Proof.
  split; [lia |].
  apply (counter_counts_returned_repairs
           agents_tests_fail "run-1" "add two numbers" 2 9).
  lia.
Defined.

(** ** How a run ends *)

Lemma route_after_debugging_end s :
  _route_after_debugging s = to_end → status s = FAILED.
Proof.
  unfold _route_after_debugging. case_bool_decide; [done |].
  destruct (negb _); [done |]. by destruct (should_continue_iteration s).
Qed.

Lemma route_after_testing_end s :
  _route_after_testing s = to_end → status s ≠ FAILED →
  can_continue_iteration s = true ∧
  ¬ test_outcome_is "failed" s ∧ ¬ test_outcome_is "passed" s.
Proof.
  unfold _route_after_testing, should_debug. case_bool_decide; [done |].
  destruct (can_continue_iteration s) eqn:Hc; simpl; [| done].
  destruct (needs_debugging s) eqn:Hn; [done |].
  destruct (should_generate_documentation s) eqn:Hg; [done |].
  intros _ _. split_and!; [done | |].
  - intros Hf. assert (needs_debugging s = true); [| congruence].
    by apply needs_debugging_true.
  - intros Hp%should_generate_documentation_true. congruence.
Qed.

(** X3. No node ever writes the status [FAILED], so the ["end"] branch of
    [_route_after_debugging] is never taken.  A run that reaches [END]
    returns a state (never a fault) whose status is [COMPLETED] or
    [DOCUMENTING], when it ends after the documenting node, or [TESTING],
    when it ends after the testing node; the latter happens only below the
    ceiling with a verify result that records neither ["failed"] nor
    ["passed"]. *)
Theorem finished_run_status
    (agents : Agents) (workflow_id user_request : string)
    (ceiling : Z) (fuel : nat) (r : result WorkflowState) :
  let s0 := initial_state workflow_id user_request ceiling in
  ainvoke agents fuel s0 = Some r →
  ∃ s v, r = Ok s ∧ last (visits agents fuel s0) = Some v ∧ s = v_after v ∧
    ((v_node v = documenting ∧
      (status s = COMPLETED ∨ status s = DOCUMENTING)) ∨
     (v_node v = testing ∧ status s = TESTING ∧
      can_continue_iteration s = true ∧
      ¬ test_outcome_is "failed" s ∧ ¬ test_outcome_is "passed" s)).
Proof.
  intros s0 (v & Hv & -> & Hend)%ainvoke_from_last.
  exists (v_after v), v. split_and!; [done.. |].
  pose proof (visits_from_visit_ok agents fuel 0 entry_point s0) as Hok.
  rewrite Forall_forall in Hok.
  specialize (Hok v (last_Some_elem_of _ _ Hv)). unfold visit_ok in Hok.
  pose proof (exec_status_not_FAILED agents (v_node v) (v_time v)
                (v_before v)) as Hnf.
  pose proof (exec_status agents (v_node v) (v_time v) (v_before v)) as Hst.
  rewrite <- Hok in Hnf, Hst.
  destruct (v_node v) eqn:Hn; simpl in Hend; try done.
  - right. destruct (_route_after_testing (v_after v)) eqn:Hr; try done.
    split_and!; [done | done |..]; by apply route_after_testing_end.
  - destruct (_route_after_debugging (v_after v)) eqn:Hr; try done.
    by apply route_after_debugging_end in Hr.
  - left. split; [done |].
    destruct (agent_call _ _ _ _); [by left | by right].
Qed.

(** The run of [agents_tester_raises] ends after the testing node. *)
Lemma finished_run_status_witness :
  let s0 := initial_state "run-3" "add two numbers" 3 in
  let r := Ok (last_state s0 (visits agents_tester_raises 7 s0)) in
  ainvoke agents_tester_raises 7 s0 = Some r ∧
  ∃ s v, r = Ok s ∧ last (visits agents_tester_raises 7 s0) = Some v ∧
    s = v_after v ∧
    ((v_node v = documenting ∧
      (status s = COMPLETED ∨ status s = DOCUMENTING)) ∨
     (v_node v = testing ∧ status s = TESTING ∧
      can_continue_iteration s = true ∧
      ¬ test_outcome_is "failed" s ∧ ¬ test_outcome_is "passed" s)).
Proof.
  intros s0 r.
  assert (ainvoke agents_tester_raises 7 s0 = Some r) as Hrun
    by (vm_compute; reflexivity).
  split; [exact Hrun |].
  exact (finished_run_status agents_tester_raises "run-3"
           "add two numbers" 3 7 r Hrun).
Defined.

(** ** Task lists *)

Lemma add_completed_task_grows task s :
  completed_tasks s `prefix_of` completed_tasks (add_completed_task task s) ∧
  task ∈ completed_tasks (add_completed_task task s).
Proof.
  unfold add_completed_task. case_bool_decide; [done |]. simpl.
  split; [by apply prefix_app_r | set_solver].
Qed.

Lemma add_failed_task_grows task s :
  failed_tasks s `prefix_of` failed_tasks (add_failed_task task s) ∧
  task ∈ failed_tasks (add_failed_task task s).
Proof.
  unfold add_failed_task. case_bool_decide; [done |]. simpl.
  split; [by apply prefix_app_r | set_solver].
Qed.

(** X4. Every node execution only appends to [completed_tasks] and
    [failed_tasks]: when the collaborator returned, the label of the node
    is in [completed_tasks] afterwards and [failed_tasks] is untouched;
    when it raised, the label is in [failed_tasks] afterwards and
    [completed_tasks] is untouched. *)
Theorem stage_outcome_is_recorded
    (agents : Agents) (n : node) (t : nat) (s : WorkflowState) :
  let s' := exec_node agents n t s in
  completed_tasks s `prefix_of` completed_tasks s' ∧
  failed_tasks s `prefix_of` failed_tasks s' ∧
  match agent_call agents n t s with
  | Ok _ =>
      node_task n ∈ completed_tasks s' ∧ failed_tasks s' = failed_tasks s
  | Raise _ =>
      node_task n ∈ failed_tasks s' ∧ completed_tasks s' = completed_tasks s
  end.
Proof.
  intros s'. unfold s'. rewrite exec_completed_tasks, exec_failed_tasks.
  destruct (agent_call agents n t s).
  - split_and!; try done; apply add_completed_task_grows.
  - split_and!; try done; apply add_failed_task_grows.
Qed.

(** ** Result slots and the context *)

Lemma mirrored_generated_code_view s :
  mirrored s → generated_code_view s = opt_dict (coder_result s).
Proof.
  intros (_ & Hc & _). unfold generated_code_view, py_or, get_context, dict_get.
  rewrite Hc. destruct (coder_result s) as [d|]; [| done]. simpl.
  by destruct (negb _).
Qed.

(** X5. In every run started by [execute], each result slot that has been
    written is mirrored in the context under its key, and a slot that has
    not been written has no entry.  Hence the fallback
    [state.coder_result or state.get_context("generated_code")] used to
    build the contexts of the tester, the debugger and the documenter
    never supplies anything but the implement slot itself. *)
Theorem context_mirrors_slots
    (agents : Agents) (workflow_id user_request : string)
    (ceiling : Z) (fuel : nat) :
  Forall (λ v,
     mirrored (v_before v) ∧ mirrored (v_after v) ∧
     generated_code_view (v_before v) = opt_dict (coder_result (v_before v)) ∧
     generated_code_view (v_after v) = opt_dict (coder_result (v_after v)))
    (visits agents fuel (initial_state workflow_id user_request ceiling)).
Proof.
  eapply Forall_impl.
  - apply (visits_from_invariant agents (λ _, mirrored)).
    + intros t n s n' Hs _. by apply exec_mirrored.
    + by split_and!.
  - intros v [Hb Hok].
    assert (mirrored (v_after v)) as Ha by (rewrite Hok; by apply exec_mirrored).
    split_and!; try done; by apply mirrored_generated_code_view.
Qed.

(** ** One current artifact *)

Section OneArtifact.
Variable agents : Agents.

Lemma artifact_repaired_code v i :
  truthy v = true → artifact (Some (repaired_code v i)) "code" = Some v.
Proof.
  intros Hv. unfold artifact, repaired_code.
  by rewrite lookup_insert_eq, Hv.
Qed.

Lemma artifact_py_get d key v :
  artifact (Some d) key = Some v → py_get d key = v ∧ truthy v = true.
Proof.
  unfold artifact, py_get, dict_get. destruct (d !! key) as [w|]; [| done].
  destruct (truthy w) eqn:Hw; [| done]. by intros [= <-].
Qed.

Lemma one_artifact_exec n t s :
  one_artifact n s → repair_copied (exec_node agents n t s).
Proof.
  intros [Hnone Hcopy] v. rewrite exec_debugger_result, exec_coder_result.
  destruct n; try apply Hcopy.
  - rewrite Hnone by auto. done.
  - destruct (agent_call agents debugging t s) as [d|]; [| apply Hcopy].
    intros [<- Hv]%artifact_py_get. rewrite Hv.
    by apply artifact_repaired_code.
Qed.

Lemma one_artifact_step t n s n' :
  one_artifact n s → next_node n (exec_node agents n t s) = Some n' →
  one_artifact n' (exec_node agents n t s).
Proof.
  intros Hs Hnext. split; [| by apply one_artifact_exec].
  destruct Hs as [Hnone _]. rewrite exec_debugger_result.
  destruct n; simpl in Hnext.
  - intros _. by apply Hnone; left.
  - injection Hnext as <-. by intros [|].
  - intros [-> | ->]; by destruct (_route_after_testing _).
  - intros [-> | ->]; by destruct (_route_after_debugging _).
  - done.
Qed.

End OneArtifact.

(** X6. In every run started by [execute] the implement slot holds the
    current artifact: a repair that produced a non-empty [fixed_code] has
    copied it into [coder_result], so [get_latest_code] always equals the
    non-empty [code] of [coder_result], or [None] when there is none. *)
Theorem implement_slot_holds_latest_code
    (agents : Agents) (workflow_id user_request : string)
    (ceiling : Z) (fuel : nat) :
  Forall (λ v,
     get_latest_code (v_after v) =
       match artifact (coder_result (v_after v)) "code" with
       | Some code => code
       | None => PNone
       end)
    (visits agents fuel (initial_state workflow_id user_request ceiling)).
Proof.
  eapply Forall_impl.
  - apply (visits_from_invariant agents one_artifact
             (one_artifact_step agents)).
    split; [done |]. by intros v.
  - intros v [Hb Hok]. rewrite Hok.
    pose proof (one_artifact_exec agents _ (v_time v) _ Hb) as Hcopy.
    set (s' := exec_node agents (v_node v) (v_time v) (v_before v)) in *.
    unfold get_latest_code. rewrite !slot_has_artifact.
    destruct (artifact (debugger_result s') "fixed_code") as [w|] eqn:Hd.
    + rewrite bool_decide_eq_true_2 by eauto.
      rewrite (Hcopy w Hd). by apply slot_item_artifact.
    + rewrite bool_decide_eq_false_2 by (by intros [? ?]).
      destruct (artifact (coder_result s') "code") as [w|] eqn:Hc.
      * rewrite bool_decide_eq_true_2 by eauto. by apply slot_item_artifact.
      * by rewrite bool_decide_eq_false_2 by (by intros [? ?]).
Qed.

(** ** A failing planner *)

(** X7. When the planner raises, the run is not stopped: the planning
    node records the message, headed by its label, as the first entry of
    [error_history] and as [last_error], puts its label in [failed_tasks],
    leaves [planner_result] unset, and the next node is coding, whose
    collaborator is called with a context in which ["plan"] is [None]. *)
Theorem planner_failure_does_not_stop_the_run
    (agents : Agents) (workflow_id user_request : string) (ceiling : Z)
    (e : string) (k : nat) :
  let s0 := initial_state workflow_id user_request ceiling in
  agent_call agents planning 0 s0 = Raise e →
  ∃ v0 v1 rest,
    visits agents (2 + k) s0 = v0 :: v1 :: rest ∧
    v_node v0 = planning ∧
    error_history (v_after v0) = ["规划失败: " +:+ e] ∧
    last_error (v_after v0) = Some ("规划失败: " +:+ e) ∧
    failed_tasks (v_after v0) = ["规划"] ∧
    completed_tasks (v_after v0) = [] ∧
    planner_result (v_after v0) = None ∧
    v_node v1 = coding ∧ v_before v1 = v_after v0 ∧
    coding_context (v_before v1) !! "plan" = Some PNone.
Proof.
  intros s0 Hcall. unfold visits, entry_point.
  change (2 + k) with (S (S k)).
  rewrite visits_from_S. cbn [next_node]. rewrite visits_from_S.
  do 3 eexists. split; [reflexivity |]. cbn [v_node v_after v_before].
  rewrite exec_error_history, exec_last_error, exec_failed_tasks,
    exec_completed_tasks, Hcall.
  split_and!; try done.
  - by rewrite exec_planner_result, Hcall.
  - unfold coding_context. rewrite lookup_insert_eq.
    by rewrite exec_planner_result, Hcall.
Qed.

(** A planner that raises, with collaborators that otherwise return. *)
Lemma planner_failure_does_not_stop_the_run_witness :
  let agents :=
    {| planner_execute := λ _ _, Raise "model unavailable";
       coder_execute := coder_execute agents_tests_pass;
       tester_execute := tester_execute agents_tests_pass;
       debugger_execute := debugger_execute agents_tests_pass;
       documenter_execute := documenter_execute agents_tests_pass |} in
  ∃ v0 v1 rest,
    visits agents 4 (initial_state "run-6" "add two numbers" 3)
    = v0 :: v1 :: rest ∧
    v_node v0 = planning ∧
    error_history (v_after v0) = ["规划失败: " +:+ "model unavailable"] ∧
    v_node v1 = coding.
Proof.
  intros agents.
  destruct (planner_failure_does_not_stop_the_run agents "run-6"
              "add two numbers" 3 "model unavailable" 2 eq_refl)
    as (v0 & v1 & rest & Hv & Hn0 & He & _ & _ & _ & _ & Hn1 & _).
  exists v0, v1, rest. by split_and!.
Defined.

(** ** The routing table the graph does not use *)

(** X8. After every node execution, [WorkflowNodes.get_next_node] names
    the node the graph goes to next, with one exception: where the graph
    ends the run after the testing node, [get_next_node] continues to
    documenting. *)
Theorem get_next_node_agrees_with_graph
    (agents : Agents) (n : node) (t : nat) (s : WorkflowState) :
  let s' := exec_node agents n t s in
  get_next_node s' =
    match next_node n s', n with
    | None, testing => Some documenting
    | next, _ => next
    end.
Proof.
  intros s'.
  pose proof (exec_status agents n t s) as Hst. fold s' in Hst.
  pose proof (exec_status_not_FAILED agents n t s) as Hnf. fold s' in Hnf.
  unfold get_next_node. rewrite Hst.
  destruct n; cbn [node_status next_node]; try done.
  - assert (can_continue_iteration s' = false → needs_debugging s' = false)
      as Hstop.
    { intros Hc. unfold needs_debugging. rewrite Hc.
      destruct (tester_result s'); [by rewrite andb_false_r | done]. }
    unfold _route_after_testing, should_debug.
    rewrite bool_decide_eq_false_2 by done.
    destruct (can_continue_iteration s'); cbn [negb].
    + destruct (needs_debugging s'); [done |].
      by destruct (should_generate_documentation s').
    + rewrite Hstop by done.
      by destruct (should_generate_documentation s').
  - unfold _route_after_debugging, should_continue_iteration.
    rewrite bool_decide_eq_false_2 by done.
    destruct (can_continue_iteration s'); cbn [negb].
    + rewrite andb_true_r. by destruct (needs_debugging s').
    + by rewrite andb_false_r.
  - by destruct (agent_call agents documenting t s).
Qed.

(** ** The description of the graph *)

Lemma route_after_testing_not_testing s : _route_after_testing s ≠ to_testing.
Proof.
  unfold _route_after_testing. case_bool_decide; [done |].
  destruct (negb _); [done |]. destruct (should_debug s); [done |].
  by destruct (should_generate_documentation s).
Qed.

(** X9. [get_graph_structure] describes the graph that [_build_graph]
    builds: its nodes and entry point are those of the graph; every
    transition the graph makes from a node to a node is listed in
    ["edges"], and every listed edge between nodes is taken from some
    state; each routing function only returns strings listed for its node
    in ["conditional_edges"].  (That the run can stop after the testing
    node shows in ["conditional_edges"] only: the one [END] edge in
    ["edges"] is the one from documenting.) *)
Theorem graph_structure_describes_graph :
  gs_nodes get_graph_structure
  = node_name <$> [planning; coding; testing; debugging; documenting] ∧
  gs_entry_point get_graph_structure = node_name entry_point ∧
  (∀ n s n', next_node n s = Some n' →
             (node_name n, node_name n') ∈ gs_edges get_graph_structure) ∧
  (∀ n n', (node_name n, node_name n') ∈ gs_edges get_graph_structure →
           ∃ s, next_node n s = Some n') ∧
  (∀ a b, (a, b) ∈ gs_edges get_graph_structure →
          (∃ n n', a = node_name n ∧ b = node_name n') ∨
          (a = node_name documenting ∧ b = "END")) ∧
  (∀ s, ∃ l, ("testing", l) ∈ gs_conditional_edges get_graph_structure ∧
             route_name (_route_after_testing s) ∈ l) ∧
  (∀ s, ∃ l, ("debugging", l) ∈ gs_conditional_edges get_graph_structure ∧
             route_name (_route_after_debugging s) ∈ l).
Proof.
  split_and!; [done | done | | | | |].
  - intros n s n' Hnext. destruct n; simpl in Hnext.
    + injection Hnext as <-. set_solver.
    + injection Hnext as <-. set_solver.
    + pose proof (route_after_testing_not_testing s).
      destruct (_route_after_testing s); try done;
        injection Hnext as <-; set_solver.
    + pose proof (route_after_debugging_not_debugging s).
      destruct (_route_after_debugging s); try done;
        injection Hnext as <-; set_solver.
    + done.
  - intros n n' Hin. simpl in Hin.
    repeat (apply elem_of_cons in Hin as [Hin | Hin]);
      try (by apply not_elem_of_nil in Hin);
      destruct n, n'; try done.
    + by exists (state_with PLANNING None 0 3).
    + by exists (state_with CODING None 0 3).
    + by exists (state_with TESTING (Some tests_failed) 0 3).
    + by exists (state_with TESTING (Some tests_passed) 0 3).
    + by exists (state_with DEBUGGING (Some tests_failed) 1 3).
    + by exists (state_with DEBUGGING (Some tests_failed) 3 3).
  - intros a b Hin. simpl in Hin. set_unfold in Hin.
    destruct_or!; simplify_eq.
    + left. by exists planning, coding.
    + left. by exists coding, testing.
    + left. by exists testing, debugging.
    + left. by exists testing, documenting.
    + left. by exists debugging, testing.
    + left. by exists debugging, documenting.
    + by right.
  - intros s. exists ["debugging"; "documenting"; "end"].
    split; [set_solver |].
    pose proof (route_after_testing_not_testing s).
    destruct (_route_after_testing s); try done; set_solver.
  - intros s. exists ["testing"; "documenting"; "end"].
    split; [set_solver |].
    pose proof (route_after_debugging_not_debugging s).
    destruct (_route_after_debugging s); try done; set_solver.
Qed.

(** ** Termination *)

Section Termination.
Variable agents : Agents.

Lemma finishes_within_end k t n s :
  next_node n (exec_node agents n t s) = None →
  finishes_within agents (S k) t n s.
Proof.
  intros Hend. exists 1, (Ok (exec_node agents n t s)).
  split; [lia |]. by rewrite ainvoke_from_S, Hend.
Qed.

Lemma finishes_within_step k t n s n' :
  next_node n (exec_node agents n t s) = Some n' →
  finishes_within agents k (S t) n' (exec_node agents n t s) →
  finishes_within agents (S k) t n s.
Proof.
  intros Hnext (fuel & r & Hle & Hrun). exists (S fuel), r.
  split; [lia |]. by rewrite ainvoke_from_S, Hnext.
Qed.

Lemma finishes_within_mono k k' t n s :
  k ≤ k' → finishes_within agents k t n s → finishes_within agents k' t n s.
Proof. intros Hle (fuel & r & Hf & Hrun). exists fuel, r. split; [lia | done]. Qed.

Lemma finishes_within_ainvoke k t n s :
  finishes_within agents k t n s →
  ∃ s', ainvoke_from agents k t n s = Some (Ok s').
Proof.
  intros (fuel & r & Hle & Hrun).
  replace k with (fuel + (k - fuel)) by lia.
  rewrite (ainvoke_from_more agents fuel (k - fuel) t n s r Hrun).
  destruct r as [s'|e]; [by exists s' |].
  by apply ainvoke_from_no_fault in Hrun.
Qed.

Lemma documenting_finishes k t s :
  finishes_within agents (S k) t documenting s.
Proof. by apply finishes_within_end. Qed.

Hypothesis Hdebug : debugger_always_returns agents.

(** With [k] iterations left, the verify-repair cycle is over after at
    most [2 k + 2] node executions. *)
Lemma cycle_finishes k :
  (∀ t s, (max_iterations s - iteration_count s ≤ Z.of_nat k)%Z →
          finishes_within agents (2 * k + 2) t testing s) ∧
  (∀ t s, (max_iterations s - iteration_count s ≤ Z.of_nat k)%Z →
          (iteration_count s < max_iterations s)%Z →
          finishes_within agents (2 * k + 1) t debugging s).
Proof.
  assert (∀ k,
    (∀ t s, (max_iterations s - iteration_count s ≤ Z.of_nat k)%Z →
            (iteration_count s < max_iterations s)%Z →
            finishes_within agents (2 * k + 1) t debugging s) →
    (∀ t s, (max_iterations s - iteration_count s ≤ Z.of_nat k)%Z →
            finishes_within agents (2 * k + 2) t testing s)) as Htest.
  { clear k. intros k HD t s Hrem.
    replace (2 * k + 2) with (S (2 * k + 1)) by lia.
    destruct (next_node testing (exec_node agents testing t s))
      as [n'|] eqn:Hnext; [| by apply finishes_within_end].
    eapply finishes_within_step; [done |].
    simpl in Hnext.
    destruct (_route_after_testing (exec_node agents testing t s)) eqn:Hr;
      try done; injection Hnext as <-.
    - apply route_after_testing_debugging in Hr.
      rewrite exec_iteration_count, exec_max_iterations in Hr.
      apply HD; [| by rewrite exec_iteration_count, exec_max_iterations].
      by rewrite exec_iteration_count, exec_max_iterations.
    - by pose proof (route_after_testing_not_testing
                       (exec_node agents testing t s)).
    - replace (2 * k + 1) with (S (2 * k)) by lia.
      apply documenting_finishes. }
  induction k as [|k [IHT IHD]].
  { split; [apply Htest |]; intros t s Hrem Hlt; lia. }
  assert (∀ t s, (max_iterations s - iteration_count s ≤ Z.of_nat (S k))%Z →
                 (iteration_count s < max_iterations s)%Z →
                 finishes_within agents (2 * S k + 1) t debugging s) as HD.
  { intros t s Hrem Hlt.
    replace (2 * S k + 1) with (S (2 * k + 2)) by lia.
    destruct (next_node debugging (exec_node agents debugging t s))
      as [n'|] eqn:Hnext; [| by apply finishes_within_end].
    eapply finishes_within_step; [done |].
    simpl in Hnext.
    destruct (_route_after_debugging (exec_node agents debugging t s)) eqn:Hr;
      try done; injection Hnext as <-.
    - by pose proof (route_after_debugging_not_debugging
                       (exec_node agents debugging t s)).
    - apply IHT. rewrite exec_iteration_count, exec_max_iterations.
      destruct (Hdebug t s) as [d ->]. lia.
    - replace (2 * k + 2) with (S (2 * k + 1)) by lia.
      apply documenting_finishes. }
  split; [by apply Htest | exact HD].
Qed.

End Termination.

(** X11. When every call of the debugger returns, the run is over after
    at most [2 * max_iterations + 4] node executions, whatever the other
    collaborators do: the graph call hands back a final state whenever the
    recursion limit of the library allows that many node executions.  (A
    longer run is stopped by the library and comes back as a fault.) *)
Theorem run_terminates_when_debugger_returns
    (agents : Agents) (workflow_id user_request : string) (ceiling : Z)
    (recursion_limit : nat) :
  debugger_always_returns agents →
  2 * Z.to_nat ceiling + 4 ≤ recursion_limit →
  ∃ s, ainvoke_limited agents recursion_limit
         (initial_state workflow_id user_request ceiling) = Some (Ok s).
Proof.
  intros Hdebug Hlimit.
  assert (finishes_within agents recursion_limit 0 planning
            (initial_state workflow_id user_request ceiling)) as Hfin.
  { apply (finishes_within_mono agents (2 * Z.to_nat ceiling + 4));
      [exact Hlimit |].
    replace (2 * Z.to_nat ceiling + 4)
      with (S (S (2 * Z.to_nat ceiling + 2))) by lia.
    eapply finishes_within_step; [done |].
    eapply finishes_within_step; [done |].
    apply cycle_finishes; [done |].
    rewrite !exec_iteration_count, !exec_max_iterations. simpl. lia. }
  apply finishes_within_ainvoke in Hfin as [s Hs].
  exists s. by apply ainvoke_limited_Ok.
Qed.

(** With [agents_tests_fail], ceiling 2 and a limit of 25 node executions
    the run ends. *)
Lemma run_terminates_when_debugger_returns_witness :
  debugger_always_returns agents_tests_fail ∧
  2 * Z.to_nat 2 + 4 ≤ 25 ∧
  ∃ s, ainvoke_limited agents_tests_fail 25
         (initial_state "run-1" "add two numbers" 2) = Some (Ok s).
Proof.
  assert (debugger_always_returns agents_tests_fail) as Hdebug
    by (intros t s; by eexists).
  assert (2 * Z.to_nat 2 + 4 ≤ 25) as Hlimit by (simpl; lia).
  split; [exact Hdebug |]. split; [exact Hlimit |].
  exact (run_terminates_when_debugger_returns
           agents_tests_fail "run-1" "add two numbers" 2 25 Hdebug Hlimit).
Defined.

(** With ceiling 12 the same collaborators need 27 node executions: under
    a limit of 25 the library stops the run and [execute] reports the
    fault, although every stage returned. *)
Lemma recursion_limit_stops_a_long_run :
  ainvoke_limited agents_tests_fail 25
    (initial_state "run-1" "add two numbers" 12)
  = Some (Raise GraphRecursionError) ∧
  execute (ainvoke_limited agents_tests_fail 25) 12 "run-1"
    "add two numbers" None
  = Some (Ok (failure_result "run-1" GraphRecursionError)) ∧
  length (visits agents_tests_fail 27
            (initial_state "run-1" "add two numbers" 12)) = 27 ∧
  (∃ s, ainvoke agents_tests_fail 27
          (initial_state "run-1" "add two numbers" 12) = Some (Ok s)).
Proof.
  assert (ainvoke agents_tests_fail 25
            (initial_state "run-1" "add two numbers" 12) = None) as Hrun
    by (vm_compute; reflexivity).
  assert (ainvoke_limited agents_tests_fail 25
            (initial_state "run-1" "add two numbers" 12)
          = Some (Raise GraphRecursionError)) as Hcall
    by (unfold ainvoke_limited; by rewrite Hrun).
  split_and!.
  - exact Hcall.
  - rewrite execute_unfold. unfold run_id_of. cbn [opt_str truthy].
    cbn [String.eqb negb default]. by rewrite Hcall.
  - vm_compute. reflexivity.
  - eexists. vm_compute. reflexivity.
Qed.

(** ** The result of a finished run *)

Section FinalReport.
Variable agents : Agents.

(** Until the documenting node has run, nothing is documented and the
    identifier of the run is the one it started with. *)
Lemma visits_identity fuel workflow_id user_request ceiling v :
  v ∈ visits agents fuel (initial_state workflow_id user_request ceiling) →
  documenter_result (v_before v) = None ∧
  workflow_id_is workflow_id (v_before v) ∧ visit_ok agents v.
Proof.
  intros Hv.
  assert (Forall (λ v, (documenter_result (v_before v) = None ∧
                        workflow_id_is workflow_id (v_before v)) ∧
                       visit_ok agents v)
            (visits agents fuel
               (initial_state workflow_id user_request ceiling))) as Hall.
  { apply (visits_from_invariant agents
             (λ _ s, documenter_result s = None ∧
                     workflow_id_is workflow_id s)); [| done].
    intros t n s n' [Hd Hw] Hnext. unfold workflow_id_is.
    rewrite exec_documenter_result, exec_workflow_id. split; [| done].
    by destruct n. }
  rewrite Forall_forall in Hall. by destruct (Hall v Hv) as [[? ?] ?].
Qed.

Lemma exec_documenting_latest_code t s :
  get_latest_code (exec_node agents documenting t s) = get_latest_code s.
Proof.
  unfold get_latest_code.
  by rewrite exec_debugger_result, exec_coder_result.
Qed.

End FinalReport.

Lemma status_value_completed st :
  status_value st = "completed" ↔ st = COMPLETED.
Proof. by destruct st. Qed.

Lemma status_value_failed st : status_value st = "failed" ↔ st = FAILED.
Proof. by destruct st. Qed.

Lemma run_id_of_given uuid4 given_workflow_id :
  run_id_of uuid4 given_workflow_id =
    match given_workflow_id with
    | Some id => if String.eqb id "" then uuid4 else id
    | None => uuid4
    end.
Proof.
  unfold run_id_of. destruct given_workflow_id as [id|]; [| done]. simpl.
  by destruct (String.eqb id "").
Qed.

(** The result built from the final state of a run that reached [END]. *)
Lemma run_result_of_final_state (agents : Agents)
    (run_id user_request : string) (ceiling : Z) (fuel : nat)
    (s : WorkflowState) :
  ainvoke agents fuel (initial_state run_id user_request ceiling)
  = Some (Ok s) →
  let r := run_result s in
  res_workflow_id r = run_id ∧
  (res_success r = true ↔ res_status r = "completed") ∧
  res_status r ≠ "failed" ∧
  res_summary r !! "workflow_id" = Some (PStr (res_workflow_id r)) ∧
  res_summary r !! "status" = Some (PStr (res_status r)) ∧
  res_summary r !! "iteration_count" = Some (PInt (res_iteration_count r)) ∧
  res_summary r !! "completed_tasks"
  = Some (PInt (Z.of_nat (length (res_completed_tasks r)))) ∧
  res_summary r !! "failed_tasks"
  = Some (PInt (Z.of_nat (length (res_failed_tasks r)))) ∧
  res_summary r !! "has_documentation" = Some (PBool (res_success r)).
Proof.
  intros Hrun r. unfold r. clear r.
  apply ainvoke_from_last in Hrun as (v & Hv & [= Hs] & _).
  fold (visits agents fuel (initial_state run_id user_request ceiling))
    in Hv.
  rewrite Hs. clear Hs.
  destruct (visits_identity agents _ _ _ _ v (last_Some_elem_of _ _ Hv))
    as (Hd & Hw & Hok).
  rewrite Hok.
  set (s' := exec_node agents (v_node v) (v_time v) (v_before v)).
  assert (workflow_id s' = run_id) as Hid
    by (unfold s'; by rewrite exec_workflow_id).
  pose proof (exec_status_not_FAILED agents (v_node v) (v_time v)
                (v_before v)) as Hnf. fold s' in Hnf.
  assert (bool_decide (documenter_result s' ≠ None)
          = bool_decide (status s' = COMPLETED)) as Hdoc.
  { unfold s'. rewrite exec_documenter_result, exec_status, Hd.
    destruct (v_node v); try done.
    by destruct (agent_call _ _ _ _). }
  cbn [run_result res_workflow_id res_success res_status res_summary
       res_iteration_count res_completed_tasks res_failed_tasks].
  unfold get_summary.
  repeat first [ rewrite lookup_insert_eq | rewrite lookup_insert_ne by done ].
  split_and!; try done.
  - rewrite status_value_completed. apply bool_decide_eq_true.
  - by rewrite status_value_failed.
  - by rewrite Hdoc.
Qed.

(** X10. [execute] always returns a result, and it carries the identifier
    the caller gave (the drawn one when none or an empty one was given);
    [success] holds exactly when [status] is ["completed"].  [status] is
    ["failed"] exactly when an exception was caught, and that happens
    exactly when the run did not reach [END] within the recursion limit or
    its final [final_code] or [final_documentation] is not a string or
    [None].  Without a caught exception the summary repeats the
    identifier, the status and the counter, counts the two task lists, and
    its [has_documentation] flag equals [success]; with one, the summary
    and the task lists are empty and the counter is 0, whatever the run
    did. *)
Theorem run_result_is_consistent
    (agents : Agents) (ceiling : Z) (uuid4 user_request : string)
    (given_workflow_id : option string) (recursion_limit : nat) :
  let s0 :=
    initial_state (run_id_of uuid4 given_workflow_id) user_request ceiling in
  ∃ r, execute (ainvoke_limited agents recursion_limit) ceiling uuid4
         user_request given_workflow_id = Some (Ok r) ∧
    res_workflow_id r =
      match given_workflow_id with
      | Some id => if String.eqb id "" then uuid4 else id
      | None => uuid4
      end ∧
    (res_success r = true ↔ res_status r = "completed") ∧
    (res_status r = "failed" ↔ res_error r ≠ None) ∧
    (res_error r = None ↔
     ∃ s, ainvoke agents recursion_limit s0 = Some (Ok s) ∧ outputs_valid s) ∧
    match res_error r with
    | None =>
        res_summary r !! "workflow_id" = Some (PStr (res_workflow_id r)) ∧
        res_summary r !! "status" = Some (PStr (res_status r)) ∧
        res_summary r !! "iteration_count"
        = Some (PInt (res_iteration_count r)) ∧
        res_summary r !! "completed_tasks"
        = Some (PInt (Z.of_nat (length (res_completed_tasks r)))) ∧
        res_summary r !! "failed_tasks"
        = Some (PInt (Z.of_nat (length (res_failed_tasks r)))) ∧
        res_summary r !! "has_documentation" = Some (PBool (res_success r))
    | Some error_msg =>
        res_summary r = ∅ ∧ res_iteration_count r = 0%Z ∧
        res_completed_tasks r = [] ∧ res_failed_tasks r = [] ∧
        res_error_history r = [error_msg]
    end.
Proof.
  intros s0. rewrite execute_unfold. fold s0.
  rewrite <- run_id_of_given.
  destruct (ainvoke_limited agents recursion_limit s0) as [[s|e]|] eqn:Hcall.
  - apply ainvoke_limited_Ok in Hcall.
    destruct (run_result_of_final_state agents _ _ _ _ s Hcall)
      as (Hid & Hsucc & Hnf & Hsum).
    eexists. split; [done |].
    destruct (is_optional_str (final_code s) &&
              is_optional_str (final_documentation s)) eqn:Hvalid.
    + apply andb_true_iff in Hvalid.
      split_and!; [done | done | | | done].
      * split; [done | intros Herr; by destruct Herr].
      * split; [intros _; by exists s | done].
    + cbn [failure_result res_workflow_id res_success res_status res_error
           res_summary res_iteration_count res_completed_tasks
           res_failed_tasks res_error_history].
      split_and!; try done; try (by split).
      split; [done |]. intros (s' & Hs' & Hc & Hd).
      rewrite Hcall in Hs'. injection Hs' as <-.
      by rewrite Hc, Hd in Hvalid.
  - apply ainvoke_limited_Raise in Hcall as [Hnone ->].
    eexists. split; [done |].
    cbn [failure_result res_workflow_id res_success res_status res_error
         res_summary res_iteration_count res_completed_tasks
         res_failed_tasks res_error_history].
    split_and!; try done; try (by split).
    split; [done |]. intros (s' & Hs' & _). by rewrite Hnone in Hs'.
  - destruct (ainvoke_limited_returns agents recursion_limit s0) as [r Hr].
    congruence.
Qed.

(** X12. When [execute] reports [success], the last node of the run was
    documenting and its collaborator returned: [final_documentation] is
    the ["readme"] entry of that result, the empty string when the result
    has none, and [final_code] is what [get_latest_code] gives on the
    final state, which is also what the [has_code] flag of the summary
    reflects. *)
Theorem successful_run_outputs
    (agents : Agents) (ceiling : Z) (uuid4 user_request : string)
    (given_workflow_id : option string) (fuel : nat) (r : RunResult) :
  let s0 :=
    initial_state (run_id_of uuid4 given_workflow_id) user_request ceiling in
  execute (ainvoke agents fuel) ceiling uuid4 user_request given_workflow_id
  = Some (Ok r) →
  res_success r = true →
  ∃ v d, last (visits agents fuel s0) = Some v ∧
         v_node v = documenting ∧
         agent_call agents documenting (v_time v) (v_before v) = Ok d ∧
         res_final_documentation r = dict_get d "readme" (PStr "") ∧
         res_final_code r = get_latest_code (v_after v) ∧
         res_summary r !! "has_code"
         = Some (PBool (is_not_None (res_final_code r))).
Proof.
  intros s0 Hexec Hsucc.
  destruct (execute_run agents _ _ _ _ _ _ Hexec Hsucc) as [-> Hrun].
  clear Hexec. fold s0 in Hrun, Hsucc |- *.
  apply ainvoke_from_last in Hrun as (v & Hv & [= Hs] & _).
  fold (visits agents fuel s0) in Hv. rewrite Hs in *. clear Hs.
  pose proof (visits_from_visit_ok agents fuel 0 entry_point s0) as Hok.
  rewrite Forall_forall in Hok.
  specialize (Hok v (last_Some_elem_of _ _ Hv)). unfold visit_ok in Hok.
  cbn [run_result res_success] in Hsucc.
  apply bool_decide_eq_true in Hsucc.
  rewrite Hok, exec_status in Hsucc.
  destruct (v_node v) eqn:Hn; try done.
  destruct (agent_call agents documenting (v_time v) (v_before v))
    as [d|] eqn:Hcall; [| done].
  exists v, d. split_and!; try done.
  - cbn [run_result res_final_documentation].
    by rewrite Hok, exec_final_documentation, Hcall.
  - cbn [run_result res_final_code].
    rewrite Hok, exec_final_code, Hcall.
    by rewrite exec_documenting_latest_code.
  - cbn [run_result res_final_code res_summary]. unfold get_summary.
    repeat first [ rewrite lookup_insert_eq
                 | rewrite lookup_insert_ne by done ].
    do 3 f_equal. rewrite Hok, exec_final_code, Hcall.
    by rewrite exec_documenting_latest_code.
Qed.

(** The run of [agents_tests_pass]. *)
Lemma successful_run_outputs_witness :
  let s0 := initial_state "0f8fad5b" "add two numbers" 3 in
  let r := run_result (last_state s0 (visits agents_tests_pass 5 s0)) in
  execute (ainvoke agents_tests_pass 5) 3 "0f8fad5b" "add two numbers" None
  = Some (Ok r) ∧
  res_success r = true ∧
  ∃ v d, last (visits agents_tests_pass 5 s0) = Some v ∧
         v_node v = documenting ∧
         agent_call agents_tests_pass documenting (v_time v) (v_before v)
         = Ok d ∧
         res_final_documentation r = dict_get d "readme" (PStr "") ∧
         res_final_code r = get_latest_code (v_after v) ∧
         res_summary r !! "has_code"
         = Some (PBool (is_not_None (res_final_code r))).
Proof.
  intros s0 r.
  assert (execute (ainvoke agents_tests_pass 5) 3 "0f8fad5b"
            "add two numbers" None = Some (Ok r)) as Hrun
    by (vm_compute; reflexivity).
  assert (res_success r = true) as Hsucc by (vm_compute; reflexivity).
  split; [exact Hrun |]. split; [exact Hsucc |].
  exact (successful_run_outputs agents_tests_pass 3 "0f8fad5b"
           "add two numbers" None 5 r Hrun Hsucc).
Defined.

(** * The agents *)

(** ** Lines of a text *)

Lemma split_lines_nonempty text : split_lines text ≠ [].
Proof.
  destruct text as [|c rest]; [done |]. simpl.
  destruct (Ascii.eqb c LF); [done |]. by destruct (split_lines rest).
Qed.

Lemma one_line_cons c line :
  one_line (String c line) ↔ c ≠ LF ∧ one_line line.
Proof.
  unfold one_line. split.
  - intros H. split.
    + intros ->. by apply (H 0).
    + intros n. apply (H (S n)).
  - intros [Hc H] [|n]; simpl; [congruence | apply H].
Qed.

Lemma join_lines_cons line lines :
  lines ≠ [] →
  join_lines (line :: lines) = line +:+ String LF (join_lines lines).
Proof. by destruct lines. Qed.

Lemma split_lines_app line text :
  one_line line →
  split_lines (line +:+ String LF text) = line :: split_lines text.
Proof.
  induction line as [|c line IH]; intros Hl; simpl.
  - done.
  - apply one_line_cons in Hl as [Hc Hl].
    destruct (Ascii.eqb c LF) eqn:Hcl; [by apply Ascii.eqb_eq in Hcl |].
    by rewrite IH.
Qed.

Lemma split_lines_one_line line : one_line line → split_lines line = [line].
Proof.
  induction line as [|c line IH]; intros Hl; [done |]. simpl.
  apply one_line_cons in Hl as [Hc Hl].
  destruct (Ascii.eqb c LF) eqn:Hcl; [by apply Ascii.eqb_eq in Hcl |].
  by rewrite IH.
Qed.

(** Joining lines and splitting the text again gives the lines back. *)
Lemma split_join_lines lines :
  lines ≠ [] → Forall one_line lines →
  split_lines (join_lines lines) = lines.
Proof.
  induction lines as [|line lines IH]; [done |]. intros _ Hall.
  apply Forall_cons in Hall as [Hl Hall].
  destruct (decide (lines = [])) as [-> | Hne].
  - by apply split_lines_one_line.
  - rewrite join_lines_cons by done. rewrite split_lines_app by done.
    by rewrite IH.
Qed.

(** ** Code blocks *)

Section Parsers.
Variable strip : string → string.

Lemma foldl_parse_line acc in_code_block lines :
  (foldl (parse_line strip) (acc, in_code_block) lines).1
  = acc ++ kept_lines strip in_code_block lines.
Proof.
  revert acc in_code_block.
  induction lines as [|line lines IH]; intros acc b; simpl.
  { by rewrite app_nil_r. }
  unfold parse_line at 2. cbn [fst snd].
  destruct (String.prefix _ _); [apply IH |].
  destruct (String.eqb _ _ && b); [apply IH |].
  destruct b; [| apply IH].
  rewrite IH. by rewrite <- (assoc_L (++)).
Qed.

Lemma parse_lines_kept lines :
  parse_lines strip lines = kept_lines strip false lines.
Proof. unfold parse_lines. by rewrite foldl_parse_line. Qed.

Lemma kept_lines_sublist b lines :
  kept_lines strip b lines `sublist_of` lines.
Proof.
  revert b. induction lines as [|line lines IH]; intros b; simpl; [done |].
  destruct (String.prefix _ _); [by apply sublist_cons |].
  destruct (String.eqb _ _ && b); [by apply sublist_cons |].
  destruct b; [by apply sublist_skip | by apply sublist_cons].
Qed.

Lemma kept_lines_no_fence b lines :
  Forall (λ line, ¬ opens_block strip line ∧ ¬ closes_block strip line)
         (kept_lines strip b lines).
Proof.
  revert b. induction lines as [|line lines IH]; intros b; simpl; [done |].
  destruct (String.prefix _ _) eqn:Hopen; [apply IH |].
  destruct (String.eqb (strip line) "```") eqn:Hclose; simpl.
  - destruct b; apply IH.
  - destruct b; [| apply IH]. constructor; [| apply IH].
    unfold opens_block, closes_block. split; [congruence |].
    intros Hc. rewrite Hc in Hclose. done.
Qed.

Lemma kept_lines_outside lines :
  Forall (λ line, ¬ opens_block strip line) lines →
  kept_lines strip false lines = [].
Proof.
  induction 1 as [|line lines Hl _ IH]; simpl; [done |].
  unfold opens_block in Hl. destruct (String.prefix _ _); [done |].
  by rewrite andb_false_r.
Qed.

Lemma kept_lines_skip pre rest :
  Forall (λ line, ¬ opens_block strip line) pre →
  kept_lines strip false (pre ++ rest) = kept_lines strip false rest.
Proof.
  induction 1 as [|line lines Hl _ IH]; simpl; [done |].
  unfold opens_block in Hl. destruct (String.prefix _ _); [done |].
  by rewrite andb_false_r.
Qed.

Lemma kept_lines_body body rest :
  Forall (λ line, ¬ opens_block strip line ∧ ¬ closes_block strip line) body →
  kept_lines strip true (body ++ rest) = body ++ kept_lines strip true rest.
Proof.
  induction 1 as [|line lines [Ho Hc] _ IH]; simpl; [done |].
  unfold opens_block, closes_block in Ho, Hc.
  destruct (String.prefix _ _); [done |].
  destruct (String.eqb (strip line) "```") eqn:Hclose.
  { by apply String.eqb_eq in Hclose. }
  simpl. by rewrite IH.
Qed.

End Parsers.

(** X13. The three parsers of a reply ([_parse_code] for its ["code"]
    entry, [_parse_test_code], [_parse_fixed_code]) compute the same text:
    some of the lines of the reply, in their order, joined by line feeds;
    none of the lines kept opens a code block or is a closing fence.  A
    reply in which no line opens a block with [```python] gives the empty
    text. *)
Theorem parsers_keep_lines_of_the_reply
    (strip : string → string) (response_text : string) :
  _parse_test_code strip response_text
  = _parse_fixed_code strip response_text ∧
  _parse_code strip response_text !! "code"
  = Some (PStr (_parse_fixed_code strip response_text)) ∧
  (∃ code_lines,
     _parse_fixed_code strip response_text = join_lines code_lines ∧
     code_lines `sublist_of` split_lines response_text ∧
     Forall (λ line, ¬ opens_block strip line ∧ ¬ closes_block strip line)
            code_lines) ∧
  (Forall (λ line, ¬ opens_block strip line) (split_lines response_text) →
   _parse_fixed_code strip response_text = "").
Proof.
  split_and!; [done | by apply lookup_insert_eq | |].
  - exists (kept_lines strip false (split_lines response_text)).
    unfold _parse_fixed_code. rewrite parse_lines_kept.
    split_and!; [done | apply kept_lines_sublist | apply kept_lines_no_fence].
  - intros Hno. unfold _parse_fixed_code.
    by rewrite parse_lines_kept, kept_lines_outside.
Qed.

(** X14. A reply that consists of lines without a fence, a line that
    opens a block, the lines of the block, a closing fence, and further
    lines without an opening fence is parsed into the lines of the block,
    joined by line feeds. *)
Theorem parser_returns_the_block
    (strip : string → string) (pre body post : list string)
    (opening closing : string) :
  Forall one_line (pre ++ opening :: body ++ closing :: post) →
  Forall (λ line, ¬ opens_block strip line) pre →
  opens_block strip opening →
  Forall (λ line, ¬ opens_block strip line ∧ ¬ closes_block strip line) body →
  ¬ opens_block strip closing → closes_block strip closing →
  Forall (λ line, ¬ opens_block strip line) post →
  _parse_fixed_code strip
    (join_lines (pre ++ opening :: body ++ closing :: post))
  = join_lines body.
Proof.
  intros Hlines Hpre Hopen Hbody Hnopen Hclose Hpost.
  unfold _parse_fixed_code. rewrite split_join_lines; [| | done].
  2: { by destruct pre. }
  rewrite parse_lines_kept, kept_lines_skip by done.
  cbn [kept_lines]. unfold opens_block in Hopen. rewrite Hopen.
  rewrite kept_lines_body by done. cbn [kept_lines].
  unfold opens_block, closes_block in Hnopen, Hclose.
  destruct (String.prefix _ (strip closing)); [done |].
  rewrite Hclose. cbn [String.eqb Ascii.eqb Bool.eqb andb].
  rewrite kept_lines_outside by done. by rewrite app_nil_r.
Qed.

(** A reply with one block, read with a [strip] that strips nothing. *)
Lemma parser_returns_the_block_witness :
  _parse_fixed_code (λ line, line)
    (join_lines (["Here is the fix:"] ++
                 "```python" :: ["def add(a, b):"; "    return a + b"] ++
                 "```" :: ["Done."]))
  = join_lines ["def add(a, b):"; "    return a + b"].
Proof.
  assert (one_line "") as Hnil by (by intros [|n]).
  apply (parser_returns_the_block (λ line, line)
           ["Here is the fix:"] ["def add(a, b):"; "    return a + b"]
           ["Done."] "```python" "```").
  - repeat constructor;
      repeat (apply one_line_cons; split; [by vm_compute |]); exact Hnil.
  - repeat constructor. by vm_compute.
  - by vm_compute.
  - repeat constructor; by vm_compute.
  - by vm_compute.
  - by vm_compute.
  - repeat constructor. by vm_compute.
Defined.

(** ** The outcome of the test process *)

Lemma tester_result_of_status test_code test_file_path outcome :
  py_get (tester_result_of test_code test_file_path (_execute_tests outcome))
         "status"
  = PStr (if exit_ok outcome then "passed" else "failed").
Proof.
  unfold py_get at 1, dict_get, tester_result_of.
  repeat first [ rewrite lookup_insert_eq | rewrite lookup_insert_ne by done ].
  do 2 f_equal. unfold py_get, dict_get.
  destruct outcome; unfold _execute_tests; by rewrite lookup_insert_eq.
Qed.

(** X15. The status [TesterAgent.execute] reports is ["passed"] exactly
    when pytest ran to its end with exit code 0; a timeout or any other
    error of the process is reported as ["failed"].  So, below the
    ceiling, the routing after a test run whose result the tester returned
    goes to documenting on exit code 0 and to debugging otherwise, never
    to ["end"]. *)
Theorem test_process_decides_route
    (s : WorkflowState) (test_code test_file_path : string)
    (outcome : run_outcome) :
  status s ≠ FAILED →
  tester_result s
  = Some (tester_result_of test_code test_file_path
            (_execute_tests outcome)) →
  test_outcome_is (if exit_ok outcome then "passed" else "failed") s ∧
  _route_after_testing s =
    if can_continue_iteration s
    then if exit_ok outcome then to_documenting else to_debugging
    else to_documenting.
Proof.
  intros Hst Ht.
  assert (test_outcome_is (if exit_ok outcome then "passed" else "failed") s)
    as Ho.
  { eexists. split; [exact Ht | apply tester_result_of_status]. }
  split; [exact Ho |].
  destruct (can_continue_iteration s) eqn:Hc.
  - destruct (exit_ok outcome).
    + by apply route_after_testing_passed.
    + by apply route_after_testing_failed.
  - by apply route_after_testing_ceiling.
Qed.

(** A test run that timed out, below the ceiling: the run goes to repair. *)
Lemma test_process_decides_route_witness :
  let s :=
    state_with TESTING
      (Some (tester_result_of "def test_add(): ..." "tests/test_add.py"
               (_execute_tests TimeoutExpired))) 0 3 in
  status s ≠ FAILED ∧ _route_after_testing s = to_debugging.
Proof.
  intros s. assert (status s ≠ FAILED) as Hst by done.
  split; [exact Hst |].
  exact (proj2 (test_process_decides_route s "def test_add(): ..."
                  "tests/test_add.py" TimeoutExpired Hst eq_refl)).
Defined.

(** ** The heads of the tester and of the documenter *)

Lemma truthy_insert (d : dict) key v : truthy (PDict (<[key := v]> d)) = true.
Proof.
  simpl. apply negb_true_iff, bool_decide_eq_false_2.
  rewrite dom_insert_L. set_solver.
Qed.

Lemma repair_copied_latest_code s :
  repair_copied s →
  get_latest_code s =
    match artifact (coder_result s) "code" with
    | Some code => code
    | None => PNone
    end.
Proof.
  intros Hcopy. unfold get_latest_code. rewrite !slot_has_artifact.
  destruct (artifact (debugger_result s) "fixed_code") as [w|] eqn:Hd.
  - rewrite bool_decide_eq_true_2 by eauto.
    rewrite (Hcopy w Hd). by apply slot_item_artifact.
  - rewrite bool_decide_eq_false_2 by (by intros [? ?]).
    destruct (artifact (coder_result s) "code") as [w|] eqn:Hc.
    + rewrite bool_decide_eq_true_2 by eauto. by apply slot_item_artifact.
    + by rewrite bool_decide_eq_false_2 by (by intros [? ?]).
Qed.

(** What [generated_code.get("code", "")] finds in the implement slot. *)
Lemma implement_slot_code s :
  found_code
    (and_then (method_get (opt_dict (coder_result s)) "code" (PStr ""))
       (λ code, if negb (truthy code) then Raise "no code" else Ok code)) s.
Proof.
  unfold found_code, artifact, method_get, dict_get.
  destruct (coder_result s) as [d|]; [| done]. simpl.
  destruct (d !! "code") as [v|]; [| done].
  by destruct (truthy v).
Qed.

Lemma tester_code_content_found s :
  mirrored s →
  found_code (tester_code_content (Some (testing_context s))) s.
Proof.
  intros Hm. unfold tester_code_content, context_get, testing_context.
  rewrite truthy_insert. unfold dict_get at 1. rewrite lookup_insert_eq.
  rewrite mirrored_generated_code_view by done.
  pose proof (implement_slot_code s) as Hs.
  unfold found_code, and_then in *.
  destruct (method_get _ _ _) as [code|]; [| done].
  by destruct (negb (truthy code)).
Qed.

Lemma documenter_final_code_found s :
  mirrored s → repair_copied s →
  found_code (documenter_final_code (Some (documenting_context s))) s.
Proof.
  intros Hm Hcopy.
  assert (truthy (PDict (documenting_context s)) = true) as Hctx
    by apply truthy_insert.
  assert (∀ default, dict_get (documenting_context s) "debug_result" default
                     = opt_dict (debugger_result s)) as Hdebug.
  { intros default. unfold dict_get, documenting_context.
    do 2 rewrite lookup_insert_ne by done. by rewrite lookup_insert_eq. }
  assert (∀ default, dict_get (documenting_context s) "generated_code" default
                     = opt_dict (coder_result s)) as Hcode.
  { intros default. unfold dict_get, documenting_context.
    rewrite lookup_insert_eq. by apply mirrored_generated_code_view. }
  unfold documenter_final_code, _get_final_code.
  rewrite Hctx, !Hdebug, Hcode. cbn [negb].
  pose proof (implement_slot_code s) as Hs.
  assert (∀ fixed_code, truthy fixed_code = false →
    found_code
      (and_then
         (and_then (Ok fixed_code) (λ fixed_code,
            if truthy fixed_code then Ok fixed_code
            else method_get (opt_dict (coder_result s)) "code" (PStr "")))
         (λ final_code, if negb (truthy final_code)
                        then Raise "没有可文档化的代码" else Ok final_code)) s)
    as Hrest.
  { intros v Hv. cbn [and_then]. rewrite Hv.
    unfold found_code, and_then in *.
    destruct (method_get _ _ _) as [code|]; [| done].
    by destruct (negb (truthy code)). }
  destruct (debugger_result s) as [dd|] eqn:Hdd; cbn [opt_dict].
  - destruct (truthy (PDict dd)) eqn:Hne; [| by apply Hrest].
    cbn [method_get].
    destruct (truthy (dict_get dd "fixed_code" PNone)) eqn:Hf;
      [| by apply Hrest].
    cbn [and_then]. rewrite Hf. cbn [and_then]. rewrite Hf. cbn [negb].
    unfold found_code. apply Hcopy. rewrite Hdd.
    unfold artifact. unfold dict_get in Hf |- *.
    destruct (dd !! "fixed_code") as [w|]; [by rewrite Hf | done].
  - by apply Hrest.
Qed.

Lemma visits_well_kept agents fuel workflow_id user_request ceiling v :
  v ∈ visits agents fuel (initial_state workflow_id user_request ceiling) →
  mirrored (v_before v) ∧ repair_copied (v_before v) ∧ visit_ok agents v.
Proof.
  intros Hv.
  assert (Forall (λ v, well_kept (v_node v) (v_before v) ∧ visit_ok agents v)
            (visits agents fuel
               (initial_state workflow_id user_request ceiling))) as Hall.
  { apply (visits_from_invariant agents well_kept).
    - intros t n s n' [Hm Ha] Hnext.
      split; [by apply exec_mirrored | by apply one_artifact_step].
    - split; [by split_and! |]. split; [done |]. by intros w. }
  rewrite Forall_forall in Hall.
  destruct (Hall v Hv) as [[Hm [_ Hc]] Hok]. by split_and!.
Qed.

(** X16. In every run started by [execute], the heads of
    [TesterAgent.execute] and of [DocumenterAgent.execute], given the
    context their node builds, find code exactly when [get_latest_code] is
    not [None], and then it is that code they test and document;
    otherwise both raise. *)
Theorem agents_see_the_latest_code
    (agents : Agents) (workflow_id user_request : string)
    (ceiling : Z) (fuel : nat) :
  Forall (λ v,
     let s := v_before v in
     match tester_code_content (Some (testing_context s)) with
     | Ok code => get_latest_code s = code ∧ truthy code = true
     | Raise _ => get_latest_code s = PNone
     end ∧
     match documenter_final_code (Some (documenting_context s)) with
     | Ok code => get_latest_code s = code ∧ truthy code = true
     | Raise _ => get_latest_code s = PNone
     end)
    (visits agents fuel (initial_state workflow_id user_request ceiling)).
Proof.
  apply Forall_forall. intros v (Hm & Hc & _)%visits_well_kept.
  cbn zeta. rewrite (repair_copied_latest_code _ Hc).
  pose proof (tester_code_content_found _ Hm) as Ht.
  pose proof (documenter_final_code_found _ Hm Hc) as Hd.
  unfold found_code in Ht, Hd. split.
  - destruct (tester_code_content _) as [code|]; rewrite Ht; [| done].
    split; [done |]. unfold artifact in Ht.
    destruct (coder_result (v_before v)) as [d|]; [| done].
    destruct (d !! "code") as [w|]; [| done].
    destruct (truthy w) eqn:Hw; [| done]. by injection Ht as <-.
  - destruct (documenter_final_code _) as [code|]; rewrite Hd; [| done].
    split; [done |]. unfold artifact in Hd.
    destruct (coder_result (v_before v)) as [d|]; [| done].
    destruct (d !! "code") as [w|]; [| done].
    destruct (truthy w) eqn:Hw; [| done]. by injection Hd as <-.
Qed.

(** ** Runs with the tester and the documenter of the repository *)

Lemma initial_state_mirrored workflow_id user_request ceiling :
  mirrored (initial_state workflow_id user_request ceiling).
Proof. by split_and!. Qed.

Lemma tester_code_content_no_result s :
  mirrored s → coder_result s = None →
  tester_code_content (Some (testing_context s))
  = Raise "'NoneType' object has no attribute 'get'".
Proof.
  intros Hm Hc. unfold tester_code_content, context_get, testing_context.
  rewrite truthy_insert. unfold dict_get at 1. rewrite lookup_insert_eq.
  rewrite mirrored_generated_code_view by done. by rewrite Hc.
Qed.

Lemma agents_guarded_tester_guard coder :
  respects_tester_guard (agents_guarded coder).
Proof. intros t request context e He. cbn. by rewrite He. Qed.

Lemma agents_guarded_documenter_guard coder :
  respects_documenter_guard (agents_guarded coder).
Proof. intros t request context e He. cbn. by rewrite He. Qed.

Lemma agents_guarded_tester_reports coder :
  tester_reports (agents_guarded coder).
Proof.
  intros t request context d Hd. cbn in Hd.
  destruct (tester_code_content (Some context)); [| done].
  injection Hd as <-. by eexists _, _, _.
Qed.

Lemma route_after_testing_to_debugging s :
  _route_after_testing s = to_debugging → test_outcome_is "failed" s.
Proof.
  unfold _route_after_testing, should_debug. case_bool_decide; [done |].
  destruct (negb _); [done |].
  destruct (needs_debugging s) eqn:Hn.
  - intros _. by apply needs_debugging_true in Hn as [? _].
  - by destruct (should_generate_documentation s).
Qed.

Section GuardedRuns.
Variable agents : Agents.

Lemma test_record_kept_step t n s n' :
  tester_reports agents →
  test_record_kept n s →
  next_node n (exec_node agents n t s) = Some n' →
  test_record_kept n' (exec_node agents n t s).
Proof.
  intros Hrep Hkept Hnext. unfold test_record_kept in *.
  rewrite exec_tester_result, exec_iteration_count, exec_debugger_result.
  destruct n; cbn [next_node] in Hnext; simplify_eq.
  - destruct (tester_result s); [done |]. by intuition.
  - destruct (tester_result s); [done |]. by intuition.
  - destruct (agent_call agents testing t s) as [d|] eqn:Hcall.
    + apply Hrep in Hcall as (c & p & o & ->).
      rewrite tester_result_of_status. destruct (exit_ok o); eauto.
    + destruct (tester_result s) as [d|] eqn:Ht; [done |].
      split; [| by intuition]. intros ->.
      destruct (_route_after_testing _) eqn:Hr; try done.
      apply route_after_testing_to_debugging in Hr as (d & Hd & _).
      by rewrite exec_tester_result, Hcall, Ht in Hd.
  - destruct (tester_result s) as [d|] eqn:Ht.
    + by destruct (agent_call agents debugging t s).
    + by destruct Hkept as [? _].
Qed.

End GuardedRuns.

(** X17. With a tester that returns what [TesterAgent.execute] builds, a
    run ends after the documenting node, or after the testing node when
    no test has ever been run: the call of the tester raised, the verify
    slot is empty, no repair has run and the counter is 0. *)
Theorem run_ends_untested_or_documented
    (agents : Agents) (workflow_id user_request : string)
    (ceiling : Z) (fuel : nat) (r : result WorkflowState) :
  let s0 := initial_state workflow_id user_request ceiling in
  tester_reports agents →
  ainvoke agents fuel s0 = Some r →
  ∃ s v, r = Ok s ∧ last (visits agents fuel s0) = Some v ∧ s = v_after v ∧
    (v_node v = documenting ∨
     (v_node v = testing ∧
      (∃ e, agent_call agents testing (v_time v) (v_before v) = Raise e) ∧
      tester_result s = None ∧ debugger_result s = None ∧
      iteration_count s = 0%Z)).
Proof.
  intros s0 Hrep (v & Hv & -> & Hend)%ainvoke_from_last.
  exists (v_after v), v. split_and!; [done.. |].
  assert (Forall (λ v, test_record_kept (v_node v) (v_before v) ∧
                       visit_ok agents v)
            (visits_from agents fuel 0 entry_point s0)) as Hall.
  { apply (visits_from_invariant agents test_record_kept).
    - intros t n s n' Hkept Hnext. by apply test_record_kept_step.
    - unfold test_record_kept. by cbn. }
  rewrite Forall_forall in Hall.
  destruct (Hall v (last_Some_elem_of _ _ Hv)) as [Hkept Hok].
  unfold visit_ok in Hok. rewrite Hok in Hend |- *.
  unfold test_record_kept in Hkept.
  destruct (v_node v) eqn:Hn; cbn [next_node] in Hend; try done.
  - right. split; [done |].
    destruct (_route_after_testing _) eqn:Hr; try done.
    apply route_after_testing_end in Hr as (_ & Hf & Hp);
      [| apply exec_status_not_FAILED].
    rewrite exec_tester_result, exec_debugger_result, exec_iteration_count.
    unfold test_outcome_is in Hf, Hp. rewrite exec_tester_result in Hf, Hp.
    destruct (agent_call agents testing (v_time v) (v_before v))
      as [d|e] eqn:Hcall.
    + exfalso. apply Hrep in Hcall as (c & p & o & ->).
      destruct (exit_ok o) eqn:Ho.
      * apply Hp. eexists. split; [done |].
        by rewrite tester_result_of_status, Ho.
      * apply Hf. eexists. split; [done |].
        by rewrite tester_result_of_status, Ho.
    + destruct (tester_result (v_before v)) as [d|].
      * exfalso. destruct Hkept as [Hd|Hd]; [apply Hp | apply Hf]; eauto.
      * split; [by eexists |]. by intuition.
  - destruct (_route_after_debugging _) eqn:Hr; try done.
    by apply route_after_debugging_end, exec_status_not_FAILED in Hr.
  - by left.
Qed.

(** The coder raises: the run ends after the testing node. *)
Lemma run_ends_untested_or_documented_witness :
  let agents := agents_guarded (Raise "model unavailable") in
  let s0 := initial_state "0f8fad5b" "add two numbers" 3 in
  let r := Ok (last_state s0 (visits agents 3 s0)) in
  ainvoke agents 3 s0 = Some r ∧
  ∃ s v, r = Ok s ∧ last (visits agents 3 s0) = Some v ∧ s = v_after v ∧
    (v_node v = documenting ∨
     (v_node v = testing ∧
      (∃ e, agent_call agents testing (v_time v) (v_before v) = Raise e) ∧
      tester_result s = None ∧ debugger_result s = None ∧
      iteration_count s = 0%Z)).
Proof.
  intros agents s0 r.
  assert (ainvoke agents 3 s0 = Some r) as Hrun by (vm_compute; reflexivity).
  split; [exact Hrun |].
  exact (run_ends_untested_or_documented agents "0f8fad5b" "add two numbers"
           3 3 r (agents_guarded_tester_reports _) Hrun).
Defined.

(** X18. When the call of the coder raises, a tester that starts as
    [TesterAgent.execute] does is handed [None] as generated code and
    raises on [generated_code.get]: under a positive ceiling the run is
    planning, coding, testing and ends there, in status [TESTING], without
    verify result, code or documentation, its last error the missing
    attribute. *)
Theorem coder_failure_ends_the_run
    (agents : Agents) (workflow_id user_request : string)
    (ceiling : Z) (fuel : nat) (e : string) :
  let s0 := initial_state workflow_id user_request ceiling in
  respects_tester_guard agents →
  (0 < ceiling)%Z →
  (∀ s, agent_call agents coding 1 s = Raise e) →
  ∃ s, ainvoke agents (3 + fuel) s0 = Some (Ok s) ∧
       v_node <$> visits agents (3 + fuel) s0 = [planning; coding; testing] ∧
       status s = TESTING ∧
       last_error s
       = Some "测试失败: 'NoneType' object has no attribute 'get'" ∧
       In ("编码失败: " +:+ e) (error_history s) ∧
       tester_result s = None ∧
       final_code s = PNone ∧ final_documentation s = PNone.
Proof.
  intros s0 Hguard Hpos Hcoder.
  set (s1 := exec_node agents planning 0 s0).
  set (s2 := exec_node agents coding 1 s1).
  set (s3 := exec_node agents testing 2 s2).
  assert (coder_result s2 = None) as Hc2.
  { unfold s2. rewrite exec_coder_result, Hcoder.
    unfold s1. by rewrite exec_coder_result. }
  assert (mirrored s2) as Hm2.
  { do 2 apply exec_mirrored. apply initial_state_mirrored. }
  assert (agent_call agents testing 2 s2
          = Raise "'NoneType' object has no attribute 'get'") as Htest.
  { apply Hguard. by apply tester_code_content_no_result. }
  assert (tester_result s3 = None) as Ht3.
  { unfold s3. rewrite exec_tester_result, Htest.
    unfold s2. rewrite exec_tester_result.
    unfold s1. by rewrite exec_tester_result. }
  assert (_route_after_testing s3 = to_end) as Hend.
  { apply route_after_testing_other.
    - apply exec_status_not_FAILED.
    - apply can_continue_iteration_spec.
      unfold s3, s2, s1.
      by rewrite !exec_max_iterations, !exec_iteration_count.
    - intros (d & Hd & _). by rewrite Ht3 in Hd.
    - intros (d & Hd & _). by rewrite Ht3 in Hd. }
  exists s3. change (3 + fuel) with (S (S (S fuel))).
  unfold ainvoke, visits, entry_point.
  rewrite ainvoke_from_S, visits_from_S. cbn [next_node]. fold s1.
  rewrite ainvoke_from_S, visits_from_S. cbn [next_node]. fold s2.
  rewrite ainvoke_from_S, visits_from_S. cbn [next_node]. fold s3.
  rewrite Hend. cbn [path_map].
  split_and!; try done.
  - unfold s3. by rewrite exec_status.
  - unfold s3. by rewrite exec_last_error, Htest.
  - unfold s3. rewrite exec_error_history, Htest.
    unfold s2. rewrite exec_error_history, Hcoder.
    apply in_or_app. left. apply in_or_app. right. by left.
  - unfold s3, s2, s1. by rewrite !exec_final_code.
  - unfold s3, s2, s1. by rewrite !exec_final_documentation.
Qed.

Lemma coder_failure_ends_the_run_witness :
  let agents := agents_guarded (Raise "model unavailable") in
  let s0 := initial_state "0f8fad5b" "add two numbers" 3 in
  ∃ s, ainvoke agents (3 + 2) s0 = Some (Ok s) ∧
       v_node <$> visits agents (3 + 2) s0 = [planning; coding; testing] ∧
       status s = TESTING ∧
       last_error s
       = Some "测试失败: 'NoneType' object has no attribute 'get'" ∧
       In ("编码失败: " +:+ "model unavailable") (error_history s) ∧
       tester_result s = None ∧
       final_code s = PNone ∧ final_documentation s = PNone.
Proof.
  intros agents s0.
  assert (0 < 3)%Z as Hpos by lia.
  assert (∀ s, agent_call agents coding 1 s = Raise "model unavailable")
    as Hcoder by reflexivity.
  exact (coder_failure_ends_the_run agents "0f8fad5b" "add two numbers" 3 2
           "model unavailable" (agents_guarded_tester_guard _) Hpos Hcoder).
Defined.

(** X19. With a documenter that starts as [DocumenterAgent.execute] does,
    [execute] reports [success] only with code: the documenter was handed
    a context in which it finds the code that [final_code] then holds, and
    that code is neither [None] nor empty. *)
Theorem success_comes_with_code
    (agents : Agents) (ceiling : Z) (uuid4 user_request : string)
    (given_workflow_id : option string) (fuel : nat) (r : RunResult) :
  let s0 :=
    initial_state (run_id_of uuid4 given_workflow_id) user_request ceiling in
  respects_documenter_guard agents →
  execute (ainvoke agents fuel) ceiling uuid4 user_request given_workflow_id
  = Some (Ok r) →
  res_success r = true →
  truthy (res_final_code r) = true ∧
  ∃ v, last (visits agents fuel s0) = Some v ∧
       documenter_final_code (Some (documenting_context (v_before v)))
       = Ok (res_final_code r).
Proof.
  intros s0 Hguard Hexec Hsucc.
  destruct (execute_run agents _ _ _ _ _ _ Hexec Hsucc) as [-> Hrun].
  clear Hexec. fold s0 in Hrun, Hsucc |- *.
  apply ainvoke_from_last in Hrun as (v & Hv & [= Hs] & _).
  fold (visits agents fuel s0) in Hv. rewrite Hs in *. clear Hs.
  destruct (visits_well_kept agents fuel _ _ _ v (last_Some_elem_of _ _ Hv))
    as (Hm & Hcopy & Hok).
  unfold visit_ok in Hok.
  cbn [run_result res_success res_final_code] in Hsucc |- *.
  apply bool_decide_eq_true in Hsucc.
  rewrite Hok, exec_status in Hsucc. rewrite Hok, exec_final_code.
  destruct (v_node v) eqn:Hn; try done.
  destruct (agent_call agents documenting (v_time v) (v_before v))
    as [d|] eqn:Hcall; [| done].
  rewrite (repair_copied_latest_code _ Hcopy).
  pose proof (documenter_final_code_found _ Hm Hcopy) as Hfound.
  unfold found_code in Hfound.
  destruct (documenter_final_code _) as [code|e] eqn:Hdoc.
  - rewrite Hfound. split; [| by exists v].
    unfold artifact in Hfound.
    destruct (coder_result (v_before v)) as [cd|]; [| done].
    destruct (cd !! "code") as [w|]; [| done].
    destruct (truthy w) eqn:Hw; [| done]. by injection Hfound as <-.
  - cbn [agent_call] in Hcall. by rewrite (Hguard _ _ _ _ Hdoc) in Hcall.
Qed.

Lemma success_comes_with_code_witness :
  let agents := agents_guarded (Ok a_code) in
  let s0 := initial_state "0f8fad5b" "add two numbers" 3 in
  let r := run_result (last_state s0 (visits agents 5 s0)) in
  execute (ainvoke agents 5) 3 "0f8fad5b" "add two numbers" None
  = Some (Ok r) ∧
  res_success r = true ∧
  truthy (res_final_code r) = true ∧
  ∃ v, last (visits agents 5 s0) = Some v ∧
       documenter_final_code (Some (documenting_context (v_before v)))
       = Ok (res_final_code r).
Proof.
  intros agents s0 r.
  assert (execute (ainvoke agents 5) 3 "0f8fad5b" "add two numbers" None
          = Some (Ok r)) as Hrun by (vm_compute; reflexivity).
  assert (res_success r = true) as Hsucc by (vm_compute; reflexivity).
  split; [exact Hrun |]. split; [exact Hsucc |].
  exact (success_comes_with_code agents 3 "0f8fad5b" "add two numbers" None 5
           r (agents_guarded_documenter_guard _) Hrun Hsucc).
Defined.

(** X20. The debugging node runs only on a recorded failure, so the test
    at the head of [DebuggerAgent.execute] never holds in a run: the
    debugger never answers ["no_debugging_needed"] for want of a failed
    test. *)
Theorem debugger_never_skips
    (agents : Agents) (workflow_id user_request : string)
    (ceiling : Z) (fuel : nat) :
  Forall (λ v,
     v_node v = debugging →
     test_outcome_is "failed" (v_before v) ∧
     debugger_skips (Some (debugging_context (v_before v))) = Ok false)
    (visits agents fuel (initial_state workflow_id user_request ceiling)).
Proof.
  eapply Forall_impl.
  - apply (visits_from_invariant agents repair_is_due).
    + intros t n s n' _ Hnext ->.
      destruct n; cbn [next_node] in Hnext; simplify_eq.
      * destruct (_route_after_testing _) eqn:Hr; try done.
        by apply route_after_testing_to_debugging.
      * destruct (_route_after_debugging _) eqn:Hr; try done.
        by apply route_after_debugging_not_debugging in Hr.
    + done.
  - intros v [Hdue _] Hn. specialize (Hdue Hn). split; [done |].
    destruct Hdue as (d & Ht & Hd).
    unfold debugger_skips, context_get, debugging_context.
    rewrite truthy_insert. unfold dict_get at 1 2.
    rewrite lookup_insert_ne by done. rewrite lookup_insert_eq.
    rewrite Ht. cbn [opt_dict].
    assert (truthy (PDict d) = true) as ->.
    { simpl. apply negb_true_iff, bool_decide_eq_false_2. intros Hdom.
      apply dom_empty_iff_L in Hdom. subst d. by unfold py_get, dict_get in Hd. }
    cbn [negb method_get and_then]. unfold py_get in Hd. by rewrite Hd.
Qed.

(** ** The tasks of a plan *)

Lemma task_marker_nonempty line :
  task_marker line = true → truthy (PStr line) = true.
Proof. by destruct line. Qed.

Lemma foldl_extract_line strip tasks lines :
  foldl (extract_line strip) tasks lines
  = tasks ++ (task_of <$> List.filter task_marker (strip <$> lines)).
Proof.
  revert tasks. induction lines as [|line lines IH]; intros tasks.
  - by rewrite app_nil_r.
  - cbn [foldl fmap list_fmap List.filter]. rewrite IH. unfold extract_line.
    destruct (task_marker (strip line)) eqn:Hm.
    + rewrite (task_marker_nonempty _ Hm). cbn [andb fmap list_fmap].
      by rewrite <- app_assoc.
    + by rewrite andb_false_r.
Qed.

(** X21. The tasks [PlannerAgent._extract_tasks] finds in a plan are, in
    the order of the text, its stripped lines that begin with ["1."] to
    ["5."] or with ["-"], each as a pending task of medium priority: there
    are no more tasks than lines, and an item numbered from 6 on is no
    task. *)
Theorem plan_tasks_are_the_marked_lines
    (strip : string → string) (plan_text : string) :
  _extract_tasks strip plan_text
  = task_of <$> List.filter task_marker (strip <$> split_lines plan_text) ∧
  length (_extract_tasks strip plan_text) ≤ length (split_lines plan_text) ∧
  ∀ task, task ∈ _extract_tasks strip plan_text →
    ∃ line marker, line ∈ split_lines plan_text ∧
      marker ∈ ["1."; "2."; "3."; "4."; "5."; "-"] ∧
      String.prefix marker (strip line) = true ∧
      task !! "description" = Some (PStr (strip line)) ∧
      task !! "status" = Some (PStr "pending").
Proof.
  assert (_extract_tasks strip plan_text
          = task_of <$>
              List.filter task_marker (strip <$> split_lines plan_text))
    as Heq.
  { unfold _extract_tasks. by rewrite foldl_extract_line. }
  split_and!; [done | |].
  - rewrite Heq, length_fmap.
    etrans; [apply List.filter_length_le |]. by rewrite length_fmap.
  - intros task. rewrite Heq.
    intros (l & -> & Hl)%list_elem_of_fmap.
    apply list_elem_of_In, List.filter_In in Hl as [Hin Hm].
    apply list_elem_of_In, list_elem_of_fmap in Hin as (line & -> & Hin).
    unfold task_marker in Hm.
    repeat (apply orb_true_iff in Hm as [Hm|Hm]);
      (eexists line, _; split_and!; [done | | exact Hm | done..]);
      set_solver.
Qed.
